(** * WLANThermo Home Assistant integration: a shallow embedding

    The development follows the layout of [custom_components/wlanthermo]:

    - [Py]          the Python values, truthiness and exceptions the code relies on;
    - [Api]         [api.py]: the device client ([_get], [_request], the write helpers);
    - [Coordinator] [__init__.py]: the poll cycle [async_update_data];
    - [Sensor]      [sensor.py]: the time-left forecast and the pitmaster temperature;
    - [Button]      [button.py]: the debounced actions;
    - [Switch]      [switch.py]: the bit-mask helpers.

    Python numbers that carry times and temperatures are modelled as exact
    rationals ([Q]); Python integers used as bit masks are modelled as [Z]. *)

From Stdlib Require Import ZArith QArith Qround Lqa Ascii String List Bool Lia.
From stdpp Require Import base option list strings gmap.

Local Open Scope Z_scope.

(** ** Python values *)

Module Py.

(** The values that reach the modelled code: decoded JSON, configuration
    options, and the operands of [and]. A [dict] keeps its insertion order;
    [Obj] stands for any other object (a module, class, function or
    instance), which Python takes as true. *)
#[warnings="-register-all"] Inductive value : Type :=
| None_
| Bool (b : bool)
| Int (z : Z)
| Float (q : Q)
| Str (s : string)
| List_ (l : list value)
| Dict (d : list (string * value))
| Obj (name : string).

(** [bool(v)]: the truth value Python gives [v] in [if v], [not v], [a and b]. *)
Definition truthy (v : value) : bool :=
  match v with
  | None_ => false
  | Bool b => b
  | Int z => negb (z =? 0)
  | Float q => negb (Qeq_bool q 0)
  | Str s => negb (String.eqb s "")
  | List_ l => match l with [] => false | _ => true end
  | Dict d => match d with [] => false | _ => true end
  | Obj _ => true
  end.

(** The exceptions the modelled code can meet. *)
Inductive exn : Type :=
| NameError (name : string)
| AttributeError (attr : string)
| ValueError (msg : string)
| OtherError (msg : string).

(** The outcome of evaluating an expression: a value or a raised exception. *)
Inductive result (A : Type) : Type :=
| Ok (a : A)
| Raise (e : exn).
Arguments Ok {A} a.
Arguments Raise {A} e.

Definition is_ok {A} (r : result A) : bool :=
  match r with Ok _ => true | Raise _ => false end.

(** Statements that read and write a store [S] and may raise. A raised
    exception keeps the writes made before it, as in Python. *)
Definition M (S A : Type) : Type := S -> result A * S.

Definition ret {S A} (a : A) : M S A := fun s => (Ok a, s).
Definition raise {S A} (e : exn) : M S A := fun s => (Raise e, s).
Definition bind {S A B} (m : M S A) (k : A -> M S B) : M S B :=
  fun s => match m s with
           | (Ok a, s') => k a s'
           | (Raise e, s') => (Raise e, s')
           end.
Definition get {S} : M S S := fun s => (Ok s, s).
Definition put {S} (s : S) : M S unit := fun _ => (Ok tt, s).
Definition modify {S} (f : S -> S) : M S unit := fun s => (Ok tt, f s).
Definition lift {S A} (r : result A) : M S A := fun s => (r, s).

(** [try: body except Exception: handler] *)
Definition try_except {S A} (body : M S A) (handler : exn -> M S A) : M S A :=
  fun s => match body s with
           | (Ok a, s') => (Ok a, s')
           | (Raise e, s') => handler e s'
           end.

End Py.

Declare Scope py_scope.
Delimit Scope py_scope with py.
Notation "x <- m ;; k" := (Py.bind m (fun x => k))
  (at level 100, m at next level, right associativity) : py_scope.
Notation "m ;;; k" := (Py.bind m (fun _ => k))
  (at level 100, right associativity) : py_scope.

(** ** api.py: the device client *)

Module Api.
Import Py.
Local Open Scope string_scope.

(** *** [str] methods used by the client

    A [str] is modelled as a [string] whose characters are the code points
    below 256. *)

(** [c.isspace()] for a code point below 256. *)
Definition isspace (c : ascii) : bool :=
  let n := N_of_ascii c in
  ((9 <=? n) && (n <=? 13) || (28 <=? n) && (n <=? 32)
   || (n =? 133) || (n =? 160))%N.

(** [c.lower()] for a code point below 256. *)
Definition lower_char (c : ascii) : ascii :=
  let n := N_of_ascii c in
  if ((65 <=? n) && (n <=? 90)
      || (192 <=? n) && (n <=? 222) && negb (n =? 215))%N
  then ascii_of_N (n + 32) else c.

(** [s.lower()] *)
Fixpoint lower (s : string) : string :=
  match s with
  | EmptyString => EmptyString
  | String c s' => String (lower_char c) (lower s')
  end.

(** [s.lstrip()] *)
Fixpoint lstrip (s : string) : string :=
  match s with
  | EmptyString => EmptyString
  | String c s' => if isspace c then lstrip s' else s
  end.

(** [s.rstrip()] *)
Fixpoint rstrip (s : string) : string :=
  match s with
  | EmptyString => EmptyString
  | String c s' =>
      match rstrip s' with
      | EmptyString => if isspace c then EmptyString else String c EmptyString
      | r => String c r
      end
  end.

(** [s.strip()] *)
Definition strip (s : string) : string := rstrip (lstrip s).

(** *** The device as seen through the HTTP session *)

(** What an answered request carries: the status code, and what
    [resp.json()] and [resp.text()] evaluate to. *)
Record response : Type := {
  status : Z;
  json : result value;
  text : result string
}.

(** A request either raises (transport error, timeout, unknown session
    method) or is answered. *)
Inductive outcome : Type :=
| Failed (e : exn)
| Responded (r : response).

(** The device behind [session.<method>(base_url + endpoint, json=payload)]. *)
Definition device : Type := string -> string -> option value -> outcome.

(** [_get(endpoint)]: the parsed JSON, or [None] on any failure. *)
Definition _get (dev : device) (endpoint : string) : value :=
  match dev "get" endpoint None with
  | Failed _ => None_
  | Responded resp =>
      if negb (status resp =? 200)%Z then None_
      else match json resp with
           | Ok data => data
           | Raise _ => None_
           end
  end.

Definition get_data (dev : device) : value := _get dev "/data".
Definition get_settings (dev : device) : value := _get dev "/settings".
Definition get_info (dev : device) : value := _get dev "/info".
Definition get_bluetooth (dev : device) : value := _get dev "/getbluetooth".
Definition get_push (dev : device) : value := _get dev "/getpush".

(** [_request(method, endpoint, json)]: [(status, text)], or [(None, None)]
    when the request raises. *)
Definition _request (dev : device) (method endpoint : string)
    (payload : option value) : option Z * option string :=
  match dev (lower method) endpoint payload with
  | Failed _ => (None, None)
  | Responded resp =>
      match text resp with
      | Ok t => (Some (status resp), Some t)
      | Raise _ => (None, None)
      end
  end.

(** The expression every write helper returns:
    [status == 200 and text and text.strip().lower() == "true"]. *)
Definition write_ack (st : option Z) (txt : option string) : value :=
  let a := Bool (bool_decide (st = Some 200%Z)) in
  if negb (truthy a) then a
  else
    let b := match txt with Some t => Str t | None => None_ end in
    if negb (truthy b) then b
    else match txt with
         | Some t => Bool (String.eqb (lower (strip t)) "true")
         | None => None_
         end.

Definition async_set_channel (dev : device) (channel_data : value)
    (method : string) : value :=
  let '(st, txt) := _request dev method "/setchannels" (Some channel_data) in
  write_ack st txt.

Definition async_set_pitmaster (dev : device) (pitmaster_data : value)
    (method : string) : value :=
  let '(st, txt) :=
    _request dev method "/setpitmaster" (Some (List_ [pitmaster_data])) in
  write_ack st txt.

Definition async_set_pid_profile (dev : device) (pid_data : value)
    (method : string) : value :=
  let '(st, txt) := _request dev method "/setpid" (Some pid_data) in
  write_ack st txt.

Definition async_set_bluetooth (dev : device) (bluetooth_data : value)
    (method : string) : value :=
  let '(st, txt) := _request dev method "/setbluetooth" (Some bluetooth_data) in
  write_ack st txt.

Definition async_set_push (dev : device) (push_data : value)
    (method : string) : value :=
  let '(st, txt) := _request dev method "/setpush" (Some push_data) in
  write_ack st txt.

Definition async_set_iot (dev : device) (iot_data : value)
    (method : string) : value :=
  let '(st, txt) := _request dev method "/setIoT" (Some iot_data) in
  write_ack st txt.

(** *** The write endpoints, for statements that range over all of them *)

Inductive write_endpoint : Type :=
| SetChannels | SetPitmaster | SetPid | SetBluetooth | SetPush | SetIoT.

Definition endpoint_path (e : write_endpoint) : string :=
  match e with
  | SetChannels => "/setchannels"
  | SetPitmaster => "/setpitmaster"
  | SetPid => "/setpid"
  | SetBluetooth => "/setbluetooth"
  | SetPush => "/setpush"
  | SetIoT => "/setIoT"
  end.

(** The JSON body a helper sends for its argument. *)
Definition wire_payload (e : write_endpoint) (arg : value) : value :=
  match e with
  | SetPitmaster => List_ [arg]
  | _ => arg
  end.

Definition write_helper (e : write_endpoint)
    : device -> value -> string -> value :=
  match e with
  | SetChannels => async_set_channel
  | SetPitmaster => async_set_pitmaster
  | SetPid => async_set_pid_profile
  | SetBluetooth => async_set_bluetooth
  | SetPush => async_set_push
  | SetIoT => async_set_iot
  end.

(** *** The acknowledgement convention, as the specification words it *)

(** Every character of [s] is whitespace. *)
Fixpoint all_space (s : string) : Prop :=
  match s with
  | EmptyString => True
  | String c s' => isspace c = true /\ all_space s'
  end.

(** [core] is the word [true] in any mixture of upper and lower case. *)
Definition true_any_case (core : string) : Prop :=
  exists c1 c2 c3 c4 : ascii,
    core = String c1 (String c2 (String c3 (String c4 EmptyString)))
    /\ (c1 = "t" \/ c1 = "T")%char /\ (c2 = "r" \/ c2 = "R")%char
    /\ (c3 = "u" \/ c3 = "U")%char /\ (c4 = "e" \/ c4 = "E")%char.

(** The body is [true] once surrounding whitespace is removed and case is
    ignored. *)
Definition body_is_true (body : string) : Prop :=
  exists pre core post : string,
    body = pre ++ core ++ post
    /\ all_space pre /\ all_space post /\ true_any_case core.

(** A device that answers every request with the same status and body. *)
Definition constant_device (st : Z) (body : string) : device :=
  fun _ _ _ => Responded {| status := st; json := Raise (ValueError "not JSON");
                            text := Ok body |}.

End Api.

(** ** __init__.py: the poll cycle *)

Module Coordinator.
Import Py Api.
Local Open Scope py_scope.

Section PollCycle.

(** [data.py] is not part of the modelled sources. Its two classes and
    their constructors are taken as given: either may raise on a payload
    it cannot map. *)
Variables SettingsData WlanthermoData : Type.
Variable from_json : value -> result SettingsData.
Variable new_WlanthermoData : value -> result WlanthermoData.

(** The objects a poll cycle could reach: the settings cached on the
    client ([api.settings], absent until first assigned) and the snapshot
    last published by the coordinator ([coordinator.data]). *)
Record store : Type := {
  api_settings : option SettingsData;
  published : option WlanthermoData
}.

Definition set_api_settings (v : SettingsData) (w : store) : store :=
  {| api_settings := Some v; published := published w |}.

(** [async_update_data()] *)
Definition async_update_data (dev : device) : M store (option WlanthermoData) :=
  try_except
    (let raw_data := get_data dev in
     if negb (truthy raw_data) then ret None
     else
       try_except
         (let raw_settings := get_settings dev in
          if truthy raw_settings then
            v <- lift (from_json raw_settings) ;;
            modify (set_api_settings v)
          else ret tt)
         (fun _ => ret tt) ;;;
       d <- lift (new_WlanthermoData raw_data) ;;
       ret (Some d))
    (fun exc => ret None).

End PollCycle.

Arguments api_settings {SettingsData WlanthermoData} _.
Arguments published {SettingsData WlanthermoData} _.
Arguments Build_store {SettingsData WlanthermoData} _ _.
Arguments async_update_data {SettingsData WlanthermoData} _ _ _ _.

(** A fetch that fails or returns an empty payload. *)
Inductive fetch_fails_or_empty (dev : device) (endpoint : string) : Prop :=
| fetch_raises e :
    dev "get" endpoint None = Failed e -> fetch_fails_or_empty dev endpoint
| fetch_bad_status resp :
    dev "get" endpoint None = Responded resp -> status resp <> 200 ->
    fetch_fails_or_empty dev endpoint
| fetch_not_json resp e :
    dev "get" endpoint None = Responded resp -> json resp = Raise e ->
    fetch_fails_or_empty dev endpoint
| fetch_empty resp v :
    dev "get" endpoint None = Responded resp -> json resp = Ok v ->
    truthy v = false -> fetch_fails_or_empty dev endpoint.

(** Sample devices: one that is unreachable, one that answers [/data] only. *)
Definition offline_device : device :=
  fun _ _ _ => Failed (OtherError "timeout").

Definition sample_telemetry : value :=
  Dict [("channel", List_ []); ("pitmaster", List_ [])].

Definition telemetry_only_device : device :=
  fun _ endpoint _ =>
    if String.eqb endpoint "/data"
    then Responded {| status := 200; json := Ok sample_telemetry; text := Ok "" |}
    else Responded {| status := 404; json := Raise (ValueError "not JSON");
                      text := Ok "" |}.

(** A device that answers every request with status 200 and the same JSON. *)
Definition constant_json_device (v : value) : device :=
  fun _ _ _ => Responded {| status := 200; json := Ok v; text := Ok "" |}.

Definition sample_store : store value value :=
  {| api_settings := Some (Dict [("device", Str "nano")]);
     published := Some (Dict [("channel", List_ [])]) |}.

End Coordinator.

(** ** sensor.py *)

Module Sensor.
Import Py.
Local Open Scope Q_scope.

(** The parts of a snapshot ([WlanthermoData]) the sensors read. *)
Record Channel : Type := {
  number : Z;
  temp : option Q;
  ch_max : option Q
}.

Record Pitmaster : Type := {
  pm_id : Z;
  pm_channel : option Z
}.

Record System : Type := { online : Z }.

Record WlanthermoData : Type := {
  channels : list Channel;
  pitmasters : list Pitmaster;
  system : option System
}.

Record ConfigEntry : Type := {
  options : gmap string value;
  entry_data : gmap string value
}.

Record Coordinator : Type := {
  last_update_success : bool;
  data : option WlanthermoData;
  config_entry : ConfigEntry
}.

(** [getattr(coordinator.data, 'channels', [])] *)
Definition data_channels (c : Coordinator) : list Channel :=
  match data c with Some d => channels d | None => [] end.

(** [getattr(coordinator.data, 'pitmasters', [])] *)
Definition data_pitmasters (c : Coordinator) : list Pitmaster :=
  match data c with Some d => pitmasters d | None => [] end.

(** [getattr(coordinator.data, 'system', None)] *)
Definition data_system (c : Coordinator) : option System :=
  match data c with Some d => system d | None => None end.

(** [options.get("show_inactive_unavailable",
                 data.get("show_inactive_unavailable", True))] *)
Definition show_inactive_unavailable (e : ConfigEntry) : value :=
  default (default (Bool true) (entry_data e !! "show_inactive_unavailable"%string))
          (options e !! "show_inactive_unavailable"%string).

(** [temp == 999.0], where [temp] may be [None]. *)
Definition is_sentinel (t : option Q) : bool :=
  match t with Some q => Qeq_bool q 999 | None => false end.

(** [x < y] on numbers. *)
Definition Qltb (x y : Q) : bool := negb (Qle_bool y x).

(** [max(x, 0)]: the first argument unless the second is greater. *)
Definition max0 (x : Q) : Q := if Qltb x 0 then 0 else x.

(** [round(x, 2)]: to the nearest hundredth, ties to the even one. *)
Definition round2 (x : Q) : Q :=
  let y := x * 100 in
  let n := Qfloor y in
  let r := y - inject_Z n in
  let m := if Qltb r (1 # 2) then n
           else if Qltb (1 # 2) r then (n + 1)%Z
           else if Z.even n then n else (n + 1)%Z in
  Qred (m # 100).

(** [d.append(x)] on a [deque(maxlen=maxlen)]: the oldest entries make room. *)
Definition deque_append {A} (maxlen : nat) (x : A) (d : list A) : list A :=
  let d' := d ++ [x] in
  drop (length d' - maxlen) d'.

(** The truth value of an object that may be [None]. *)
Definition present {A} (o : option A) : bool :=
  match o with Some _ => true | None => false end.

(** [(l[0], l[-1])] of a non-empty list. *)
Definition ends {A} (l : list A) : option (A * A) :=
  match l with
  | [] => None
  | x :: _ => Some (x, List.last l x)
  end.

(** *** [WlanthermoChannelTimeLeftSensor] *)
Module ChannelTimeLeft.

Record sensor : Type := {
  _channel_number : Z;
  _window_seconds : Q;
  _history : list (Q * Q)
}.

(** [__init__(coordinator, channel, window_seconds=300)] *)
Definition init (channel : Channel) (window_seconds : Q) : sensor :=
  {| _channel_number := number channel;
     _window_seconds := window_seconds;
     _history := [] |}.

Definition set_history (h : list (Q * Q)) (self : sensor) : sensor :=
  {| _channel_number := _channel_number self;
     _window_seconds := _window_seconds self;
     _history := h |}.

Definition _get_channel (c : Coordinator) (self : sensor) : option Channel :=
  List.find (fun ch => (number ch =? _channel_number self)%Z) (data_channels c).

Definition available (c : Coordinator) (self : sensor) : bool :=
  if negb (last_update_success c) then false
  else match data_system c with
       | None => false
       | Some _ =>
           match _get_channel c self with
           | None => false
           | Some channel =>
               let show_inactive := show_inactive_unavailable (config_entry c) in
               let temp := temp channel in
               if is_sentinel temp && truthy show_inactive then false else true
           end
       end.

(** [native_value], evaluated when [time.time()] returns [now]: the value
    reported and the sensor afterwards. *)
Definition native_value (c : Coordinator) (now : Q) (self : sensor)
    : option Q * sensor :=
  let channel := _get_channel c self in
  if negb (available c self) || negb (present channel) then (None, self)
  else
    match channel with
    | None => (None, self)
    | Some channel =>
        match temp channel with
        | None => (None, self)
        | Some temp =>
            let self :=
              set_history (deque_append 60 (now, temp) (_history self)) self in
            let window_start := now - _window_seconds self in
            let recent :=
              List.filter (fun x => Qle_bool window_start (fst x)) (_history self) in
            if (length recent <? 2)%nat then (None, self)
            else
              match ends recent with
              | None => (None, self)
              | Some (first, last) =>
                  let dt := fst last - fst first in
                  let dtemp := snd last - snd first in
                  if Qle_bool dt 0 || Qle_bool dtemp 0 then (Some 0, self)
                  else
                    let rate_per_sec := dtemp / dt in
                    match ch_max channel with
                    | None => (None, self)
                    | Some target =>
                        let time_left_min :=
                          (target - temp) / (rate_per_sec * 60) in
                        (Some (round2 (max0 time_left_min)), self)
                    end
              end
        end
    end.

(** The samples of a history that fall in the window ending at [now]. *)
Definition in_window (self : sensor) (now : Q) : list (Q * Q) :=
  List.filter (fun x => Qle_bool (now - _window_seconds self) (fst x))
              (_history self).

(** Two abbreviations for the statements below. *)

(** The sensor after the current reading has been buffered. *)
Definition buffered (now t : Q) (self : sensor) : sensor :=
  set_history (deque_append 60 (now, t) (_history self)) self.

(** The estimate made from the first and last sample in the window. *)
Definition estimate (channel : Channel) (t : Q) (first last : Q * Q) : option Q :=
  let dt := fst last - fst first in
  let dtemp := snd last - snd first in
  if Qle_bool dt 0 || Qle_bool dtemp 0 then Some 0
  else match ch_max channel with
       | None => None
       | Some target =>
           Some (round2 (max0 ((target - t) / (dtemp / dt * 60))))
       end.

End ChannelTimeLeft.

(** *** [WlanthermoPitmasterTemperatureSensor] *)
Module PitmasterTemperature.

Record sensor : Type := { _pitmaster_id : Z }.

(** The names bound at module level in [sensor.py]: its imports, its
    logger, its setup function and its classes. *)
Definition module_names : list string :=
  [ "EntityCategory"; "DataUpdateCoordinator"; "CoordinatorEntity";
    "SensorEntity"; "SensorDeviceClass"; "SensorStateClass";
    "BinarySensorEntity"; "BinarySensorDeviceClass";
    "UnitOfTemperature"; "PERCENTAGE"; "UnitOfTime"; "callback"; "DOMAIN";
    "timedelta"; "datetime"; "WlanthermoData"; "logging"; "collections";
    "_LOGGER"; "async_setup_entry";
    "WlanthermoChannelTemperatureSensor"; "WlanthermoChannelTimeLeftSensor";
    "WlanthermoSystemSensor"; "WlanthermoSystemGetUpdateSensor";
    "WlanthermoCloudLinkSensor"; "WlanthermoSystemTimeSensor";
    "WlanthermoSystemUnitSensor"; "WlanthermoSystemSocSensor";
    "WlanthermoSystemChargeSensor"; "WlanthermoSystemRssiSensor";
    "WlanthermoSystemOnlineSensor"; "WlanthermoDeviceInfoSensor";
    "WlanthermoSystemInfoSensor"; "WlanthermoIotInfoSensor";
    "WlanthermoChannelSensor"; "WlanthermoPitmasterSensor";
    "WlanthermoPitmasterValueSensor";
    "WlanthermoPitmasterTemperatureSensor" ]%string.

Definition globals : gmap string value :=
  list_to_map (List.map (fun n => (n, Obj n)) module_names).

(** A name that is not local to a function is looked up in the module's
    globals, then in the builtins; if neither binds it, [NameError]. *)
Definition load_global (builtins : gmap string value) (name : string)
    : result value :=
  match globals !! name with
  | Some v => Ok v
  | None =>
      match builtins !! name with
      | Some v => Ok v
      | None => Raise (NameError name)
      end
  end.

Definition _get_channel (c : Coordinator) (self : sensor) : option Channel :=
  match List.find (fun pm => (pm_id pm =? _pitmaster_id self)%Z)
                  (data_pitmasters c) with
  | None => None
  | Some pitmaster =>
      match pm_channel pitmaster with
      | None => None
      | Some target_channel_number =>
          List.find (fun channel => (number channel =? target_channel_number)%Z)
                    (data_channels c)
      end
  end.

(** [native_value]: the function body never binds [show_inactive], so the
    name is a global one. *)
Definition native_value (builtins : gmap string value) (c : Coordinator)
    (self : sensor) : result (option Q) :=
  match _get_channel c self with
  | None => Ok None
  | Some channel =>
      let temp := temp channel in
      let test :=
        if is_sentinel temp
        then match load_global builtins "show_inactive" with
             | Ok show_inactive => Ok (truthy show_inactive)
             | Raise e => Raise e
             end
        else Ok false in
      match test with
      | Raise e => Raise e
      | Ok true => Ok None
      | Ok false => Ok temp
      end
  end.

End PitmasterTemperature.

(** *** [WlanthermoChannelTemperatureSensor] *)
Module ChannelTemperature.

Record sensor : Type := { _channel_number : Z }.

Definition _get_channel (c : Coordinator) (self : sensor) : option Channel :=
  List.find (fun ch => (number ch =? _channel_number self)%Z) (data_channels c).

Definition native_value (c : Coordinator) (self : sensor) : option Q :=
  match _get_channel c self with
  | None => None
  | Some channel =>
      match temp channel with
      | None => None
      | Some temp =>
          let show_inactive := show_inactive_unavailable (config_entry c) in
          if is_sentinel (Some temp) && truthy show_inactive then None
          else Some temp
      end
  end.

Definition available (c : Coordinator) (self : sensor) : bool :=
  if negb (last_update_success c) then false
  else match data_system c with
       | None => false
       | Some _ =>
           match _get_channel c self with
           | None => false
           | Some channel =>
               let show_inactive := show_inactive_unavailable (config_entry c) in
               if is_sentinel (temp channel) && truthy show_inactive then false
               else true
           end
       end.

End ChannelTemperature.

(** *** [WlanthermoSystemOnlineSensor] *)
Module SystemOnline.

(** The sensor keeps the system object it saw last. *)
Record sensor : Type := { _sys : option System }.

Definition _attr_options : list string :=
  ["not_connected"; "standby"; "connected"]%string.

Definition map_value : gmap Z string :=
  {[ 0%Z := "not_connected"%string; 1%Z := "standby"%string;
     2%Z := "connected"%string ]}.

Definition _handle_coordinator_update (c : Coordinator) (self : sensor) : sensor :=
  {| _sys := data_system c |}.

Definition available (c : Coordinator) (self : sensor) : bool :=
  if negb (last_update_success c) then false
  else match data_system c with
       | None => false
       | Some _ => true
       end.

(** [native_value]: [int(None)] raises [TypeError], which is caught. *)
Definition native_value (c : Coordinator) (self : sensor) : option string :=
  if negb (available c self) then Some "not_connected"%string
  else
    match _sys self with
    | None => None
    | Some system => map_value !! online system
    end.

End SystemOnline.

(** [WlanthermoPitmasterTemperatureSensor.available] *)
Definition pitmaster_temperature_available (c : Coordinator)
    (self : PitmasterTemperature.sensor) : bool :=
  if negb (last_update_success c) then false
  else
    match data_system c with
    | None => false
    | Some system =>
        if negb (truthy (Int (online system))) then false
        else match PitmasterTemperature._get_channel c self with
             | Some channel => present (temp channel)
             | None => false
             end
    end.

(** *** Sample data *)

Definition sample_channel (t : Q) : Channel :=
  {| number := 1; temp := Some t; ch_max := Some 70 |}.

Definition sample_coordinator (t : Q) (opts : gmap string value) : Coordinator :=
  {| last_update_success := true;
     data := Some {| channels := [sample_channel t];
                     pitmasters := [ {| pm_id := 0; pm_channel := Some 1%Z |} ];
                     system := Some {| online := 2 |} |};
     config_entry := {| options := opts; entry_data := ∅ |} |}.

Definition sample_sensor (h : list (Q * Q)) : ChannelTimeLeft.sensor :=
  ChannelTimeLeft.set_history h
    (ChannelTimeLeft.init (sample_channel 0) 300).

(** Inactive channels are shown: the option is switched off. *)
Definition show_inactive_off : gmap string value :=
  {[ "show_inactive_unavailable"%string := Bool false ]}.

(** A builtins table without [show_inactive], as Python's is. *)
Definition some_builtins : gmap string value :=
  list_to_map [("len"%string, Obj "len"); ("max"%string, Obj "max");
               ("round"%string, Obj "round"); ("getattr"%string, Obj "getattr")].

End Sensor.

(** ** button.py: debounced actions *)

Module Button.
Import Py Api.
Local Open Scope Q_scope.
Local Open Scope py_scope.

Definition DEBOUNCE_SECONDS : Q := 5.

(** The parts of the snapshot the buttons read. The [to_payload] methods
    live in [data.py], outside the modelled sources, so a sub-configuration
    is represented by what its [to_payload()] evaluates to. *)
Record Push : Type := {
  telegram : result value;
  pushover : result value
}.

Record Iot : Type := { CLtoken : string; CLon : value }.

Record Settings : Type := { iot : option Iot }.

Record Data : Type := {
  push : option Push;
  settings : option Settings
}.

(** What a press does to the outside, in order. *)
Inductive event : Type :=
| DeviceRequest (method endpoint : string) (payload : option value)
| RefreshRequested
| Logged (message : string).

(** A button together with what it can reach: its own time stamp,
    [coordinator.data], and the trace of what it has done so far. *)
Record store : Type := {
  _last_press : Q;
  data : option Data;
  trace : list event
}.

(** [__init__]: [self._last_press = 0.0] *)
Definition init (d : option Data) : store :=
  {| _last_press := 0; data := d; trace := [] |}.

Definition set_last_press (now : Q) (s : store) : store :=
  {| _last_press := now; data := data s; trace := trace s |}.

Definition emit (e : event) : M store unit :=
  modify (fun s => {| _last_press := _last_press s; data := data s;
                      trace := trace s ++ [e] |}).

(** [self.coordinator.data.push] *)
Definition data_push : M store Push :=
  s <- get ;;
  match data s with
  | None => raise (AttributeError "push")
  | Some d =>
      match push d with
      | None => raise (AttributeError "telegram or pushover")
      | Some p => ret p
      end
  end.

(** [self.coordinator.data.settings.iot.CLtoken = new_token] *)
Definition assign_CLtoken (new_token : string) : M store unit :=
  s <- get ;;
  match data s with
  | None => raise (AttributeError "settings")
  | Some d =>
      match settings d with
      | None => raise (AttributeError "iot")
      | Some st =>
          match iot st with
          | None => raise (AttributeError "CLtoken")
          | Some i =>
              put {| _last_press := _last_press s;
                     data := Some {| push := push d;
                                     settings := Some {| iot :=
                                       Some {| CLtoken := new_token;
                                               CLon := CLon i |} |} |};
                     trace := trace s |}
          end
      end
  end.

(** [await self.coordinator.api.async_set_push(payload)]: the request goes
    out, the acknowledgement is computed. *)
Definition call_async_set_push (dev : device) (payload : value) : M store value :=
  emit (DeviceRequest "POST" "/setpush" (Some payload)) ;;;
  ret (async_set_push dev payload "POST").

(** [await self.coordinator.api._request("POST", "/newtoken")] *)
Definition call_request_newtoken (dev : device)
    : M store (option Z * option string) :=
  emit (DeviceRequest "POST" "/newtoken" None) ;;;
  ret (_request dev "POST" "/newtoken" None).

(** [now - self._last_press < DEBOUNCE_SECONDS] *)
Definition debounced (now : Q) (s : store) : bool :=
  Sensor.Qltb (now - _last_press s) DEBOUNCE_SECONDS.

(** [WlanthermoTelegramTestButton.async_press], when [time.monotonic()]
    returns [now]. *)
Definition telegram_async_press (dev : device) (now : Q) : M store unit :=
  s <- get ;;
  if debounced now s then ret tt
  else
    modify (set_last_press now) ;;;
    p <- data_push ;;
    telegram_payload <- lift (telegram p) ;;
    let payload := Dict [("test"%string, Bool true);
                         ("telegram"%string, telegram_payload)] in
    call_async_set_push dev payload ;;;
    ret tt.

(** [WlanthermoPushoverTestButton.async_press] *)
Definition pushover_async_press (dev : device) (now : Q) : M store unit :=
  s <- get ;;
  if debounced now s then ret tt
  else
    modify (set_last_press now) ;;;
    p <- data_push ;;
    pushover_payload <- lift (pushover p) ;;
    let payload := Dict [("test"%string, Bool true);
                         ("pushover"%string, pushover_payload)] in
    call_async_set_push dev payload ;;;
    ret tt.

(** [WlanthermoNewTokenButton.async_press] *)
Definition newtoken_async_press (dev : device) (now : Q) : M store unit :=
  s <- get ;;
  if debounced now s then ret tt
  else
    modify (set_last_press now) ;;;
    try_except
      (r <- call_request_newtoken dev ;;
       let '(st, txt) := r in
       match st, txt with
       | Some 200%Z, Some t =>
           if truthy (Str t) then
             let new_token := strip t in
             assign_CLtoken new_token ;;;
             emit RefreshRequested
           else emit (Logged "Failed to generate new IoT token")
       | _, _ => emit (Logged "Failed to generate new IoT token")
       end)
      (fun _ => emit (Logged "Error while generating new IoT token")).

(** The debounced actions. *)
Inductive action : Type := TelegramTest | PushoverTest | CloudNewToken.

Definition async_press (a : action) : device -> Q -> M store unit :=
  match a with
  | TelegramTest => telegram_async_press
  | PushoverTest => pushover_async_press
  | CloudNewToken => newtoken_async_press
  end.

(** The device writes in a trace. *)
Definition writes (t : list event) : list event :=
  List.filter (fun e => match e with DeviceRequest _ _ _ => true | _ => false end) t.

(** The request an action sends when it is acted upon with the store as
    given: the new-token button always sends one; a test button needs the
    snapshot, its push section and the provider's payload, and sends nothing
    without them. *)
Definition expected_request (a : action) (s : store) : option event :=
  match a with
  | CloudNewToken => Some (DeviceRequest "POST" "/newtoken" None)
  | TelegramTest =>
      match data s with
      | Some d =>
          match push d with
          | Some p =>
              match telegram p with
              | Ok t =>
                  Some (DeviceRequest "POST" "/setpush"
                          (Some (Dict [("test"%string, Bool true);
                                       ("telegram"%string, t)])))
              | Raise _ => None
              end
          | None => None
          end
      | None => None
      end
  | PushoverTest =>
      match data s with
      | Some d =>
          match push d with
          | Some p =>
              match pushover p with
              | Ok t =>
                  Some (DeviceRequest "POST" "/setpush"
                          (Some (Dict [("test"%string, Bool true);
                                       ("pushover"%string, t)])))
              | Raise _ => None
              end
          | None => None
          end
      | None => None
      end
  end.

(** Sample data: a snapshot with both push providers and a cloud token. *)
Definition sample_data : Data :=
  {| push := Some {| telegram := Ok (Dict [("enabled"%string, Bool true)]);
                     pushover := Ok (Dict [("enabled"%string, Bool false)]) |};
     settings := Some {| iot := Some {| CLtoken := "old"; CLon := Bool true |} |} |}.

(** *** Entity discovery *)

Inductive button : Type :=
| TelegramTestButton | PushoverTestButton | ReloadIntegrationButton
| NewTokenButton.

(** [entity_store["buttons"]] and the batches handed to
    [async_add_entities], in order. *)
Record registry : Type := {
  buttons : gset string;
  added : list (list button)
}.

Definition empty_registry : registry := {| buttons := ∅; added := [] |}.

(** [if key not in entity_store["buttons"]: new_entities.append(b);
    entity_store["buttons"].add(key)] *)
Definition discover (key : string) (b : button)
    (st : gset string * list button) : gset string * list button :=
  if decide (key ∈ st.1) then st else (st.1 ∪ {[ key ]}, st.2 ++ [b]).

(** [_async_discover_entities()], run with [coordinator.data] as given. *)
Definition _async_discover_entities (d : option Data) (r : registry) : registry :=
  if negb (Sensor.present d) then r
  else
    let st := (buttons r, []) in
    let st := discover "telegram_test" TelegramTestButton st in
    let st := discover "pushover_test" PushoverTestButton st in
    let st := discover "reload_integration" ReloadIntegrationButton st in
    let st := discover "cloud_newtoken" NewTokenButton st in
    {| buttons := st.1;
       added := match st.2 with
                | [] => added r
                | new_entities => added r ++ [new_entities]
                end |}.

(** The listener runs once at set-up and then after every coordinator
    update. *)
Definition discover_all (ds : list (option Data)) : registry :=
  List.fold_left (fun r d => _async_discover_entities d r) ds empty_registry.

End Button.

(** ** switch.py: bit masks of selected Bluetooth probes *)

Module Switch.

(** [1 << bit]: Python raises [ValueError] on a negative shift count. *)
Definition shl1 (bit : Z) : Py.result Z :=
  if bit <? 0 then Py.Raise (Py.ValueError "negative shift count")
  else Py.Ok (Z.shiftl 1 bit).

(** [bool(mask & (1 << bit))] *)
Definition is_bit_set (mask bit : Z) : Py.result bool :=
  match shl1 bit with
  | Py.Ok b => Py.Ok (Py.truthy (Py.Int (Z.land mask b)))
  | Py.Raise e => Py.Raise e
  end.

(** [mask | (1 << bit)] *)
Definition set_bit (mask bit : Z) : Py.result Z :=
  match shl1 bit with
  | Py.Ok b => Py.Ok (Z.lor mask b)
  | Py.Raise e => Py.Raise e
  end.

(** [mask & ~(1 << bit)] *)
Definition clear_bit (mask bit : Z) : Py.result Z :=
  match shl1 bit with
  | Py.Ok b => Py.Ok (Z.land mask (Z.lnot b))
  | Py.Raise e => Py.Raise e
  end.

(** *** The switch entities

    The classes of [data.py] are represented by the attributes [switch.py]
    reads and writes; the serialisers they provide ([to_full_payload],
    [to_payload]) are taken as given and may raise. *)

Module Entities.
Import Py Api.
Local Open Scope py_scope.

(** A PID profile: the attributes the switches use, and the rest. *)
Record PidProfile : Type := {
  id : Z;
  opl : value;
  link : value;
  supports_link : value;
  other : list (string * value)
}.

(** A push provider (Telegram or Pushover). *)
Record Provider : Type := {
  enabled : value;
  credentials : list (string * value)
}.

Record Push : Type := { telegram : Provider; pushover : Provider }.

(** The Bluetooth aggregate; each device is a [dict]. *)
Record Bluetooth : Type := {
  bt_enabled : value;
  devices : list (gmap string value)
}.

(** [api.settings]: [pid] is [None] when the attribute is absent. *)
Record Settings : Type := { pid : option (list PidProfile) }.

(** [coordinator.data] *)
Record Data : Type := { push : option Push; bluetooth : option Bluetooth }.

(** What a switch can reach: [coordinator.api.settings] (absent until first
    assigned), [coordinator.data], and the trace of what it has done. *)
Record store : Type := {
  settings : option Settings;
  data : option Data;
  trace : list Button.event
}.

Definition set_pid (l : list PidProfile) (s : store) : store :=
  {| settings := Some {| pid := Some l |}; data := data s; trace := trace s |}.

Definition set_data (d : Data) (s : store) : store :=
  {| settings := settings s; data := Some d; trace := trace s |}.

Definition emit (e : Button.event) : M store unit :=
  modify (fun s => {| settings := settings s; data := data s;
                      trace := trace s ++ [e] |}).

(** [await self.coordinator.async_request_refresh()] when [success] is true. *)
Definition refresh_if (success : value) : M store unit :=
  if truthy success then emit Button.RefreshRequested else ret tt.

Section Serialisers.

Variable to_full_payload : PidProfile -> result value.
Variable provider_to_payload : Provider -> result value.
Variable bluetooth_to_payload : Bluetooth -> result value.

(** [self.coordinator.api.settings.pid] *)
Definition settings_pid : M store (list PidProfile) :=
  s <- get ;;
  match settings s with
  | None => raise (AttributeError "settings")
  | Some st =>
      match pid st with
      | None => raise (AttributeError "pid")
      | Some l => ret l
      end
  end.

(** [getattr(self.coordinator.api.settings, "pid", [])] *)
Definition settings_pid_or_empty : M store (list PidProfile) :=
  s <- get ;;
  match settings s with
  | None => raise (AttributeError "settings")
  | Some st => ret (default [] (pid st))
  end.

(** The first profile with the given id, and its position. *)
Definition first_profile (profile_id : Z) (l : list PidProfile)
    : option (nat * PidProfile) :=
  list_find (fun p => id p = profile_id) l.

(** [WlanthermoPidProfileOplSwitch.is_on] *)
Definition opl_is_on (profile_id : Z) : M store bool :=
  l <- settings_pid_or_empty ;;
  match first_profile profile_id l with
  | Some (_, profile) => ret (truthy (opl profile))
  | None => ret false
  end.

(** [WlanthermoPidProfileOplSwitch._async_set_opl] *)
Definition _async_set_opl (dev : device) (profile_id : Z) (v : bool)
    : M store unit :=
  l <- settings_pid ;;
  match first_profile profile_id l with
  | None => ret tt
  | Some (i, p) =>
      let p := {| id := id p; opl := Bool v; link := link p;
                  supports_link := supports_link p; other := other p |} in
      modify (set_pid (<[i := p]> l)) ;;;
      payload <- lift (to_full_payload p) ;;
      emit (Button.DeviceRequest "POST" "/setpid" (Some (List_ [payload]))) ;;;
      refresh_if (async_set_pid_profile dev (List_ [payload]) "POST")
  end.

(** [WlanthermoPidProfileLinkSwitch.is_on] *)
Definition link_is_on (profile_id : Z) : M store bool :=
  l <- settings_pid ;;
  match first_profile profile_id l with
  | Some (_, p) => ret (truthy (link p))
  | None => ret false
  end.

(** [WlanthermoPidProfileLinkSwitch.available] *)
Definition link_available (profile_id : Z) : M store value :=
  l <- settings_pid ;;
  match first_profile profile_id l with
  | Some (_, p) => ret (supports_link p)
  | None => ret (Bool false)
  end.

(** [WlanthermoPidProfileLinkSwitch._async_set_link]; [int(value)] of a
    [bool] is 0 or 1. *)
Definition _async_set_link (dev : device) (profile_id : Z) (v : bool)
    : M store unit :=
  l <- settings_pid ;;
  match first_profile profile_id l with
  | None => ret tt
  | Some (i, p) =>
      let p := {| id := id p; opl := opl p; link := Int (if v then 1 else 0);
                  supports_link := supports_link p; other := other p |} in
      modify (set_pid (<[i := p]> l)) ;;;
      payload <- lift (to_full_payload p) ;;
      emit (Button.DeviceRequest "POST" "/setpid" (Some (List_ [payload]))) ;;;
      refresh_if (async_set_pid_profile dev (List_ [payload]) "POST")
  end.

(** [self.coordinator.data.push] *)
Definition data_push : M store (Data * Push) :=
  s <- get ;;
  match data s with
  | None => raise (AttributeError "push")
  | Some d =>
      match push d with
      | None => raise (AttributeError "telegram or pushover")
      | Some p => ret (d, p)
      end
  end.

(** [WlanthermoTelegramEnabledSwitch.is_on] *)
Definition telegram_is_on : M store bool :=
  dp <- data_push ;; ret (truthy (enabled (telegram (snd dp)))).

(** [WlanthermoTelegramEnabledSwitch._async_write] *)
Definition telegram_async_write (dev : device) (v : bool) : M store unit :=
  dp <- data_push ;;
  let '(d, p) := dp in
  let telegram := {| enabled := Bool v;
                     credentials := credentials (telegram p) |} in
  modify (set_data {| push := Some {| telegram := telegram;
                                      pushover := pushover p |};
                      bluetooth := bluetooth d |}) ;;;
  t <- lift (provider_to_payload telegram) ;;
  let payload := Dict [("telegram"%string, t)] in
  emit (Button.DeviceRequest "POST" "/setpush" (Some payload)) ;;;
  refresh_if (async_set_push dev payload "POST").

(** [WlanthermoPushoverEnabledSwitch.is_on] *)
Definition pushover_is_on : M store bool :=
  dp <- data_push ;; ret (truthy (enabled (pushover (snd dp)))).

(** [WlanthermoPushoverEnabledSwitch._async_write] *)
Definition pushover_async_write (dev : device) (v : bool) : M store unit :=
  dp <- data_push ;;
  let '(d, p) := dp in
  let pushover := {| enabled := Bool v;
                     credentials := credentials (pushover p) |} in
  modify (set_data {| push := Some {| telegram := telegram p;
                                      pushover := pushover |};
                      bluetooth := bluetooth d |}) ;;;
  t <- lift (provider_to_payload pushover) ;;
  let payload := Dict [("pushover"%string, t)] in
  emit (Button.DeviceRequest "POST" "/setpush" (Some payload)) ;;;
  refresh_if (async_set_push dev payload "POST").

(** [self.coordinator.data.bluetooth], for the code that reads it without a
    guard on [data]. *)
Definition data_bluetooth : M store (Data * option Bluetooth) :=
  s <- get ;;
  match data s with
  | None => raise (AttributeError "bluetooth")
  | Some d => ret (d, bluetooth d)
  end.

(** [WlanthermoBluetoothProbeSwitch._push]; the enabled switch's [_push]
    differs only in reading [bluetooth] a second time without the guard,
    after its caller has checked it. *)
Definition _push (dev : device) : M store unit :=
  db <- data_bluetooth ;;
  match snd db with
  | None => ret tt
  | Some bt =>
      payload <- lift (bluetooth_to_payload bt) ;;
      emit (Button.DeviceRequest "POST" "/setbluetooth" (Some payload)) ;;;
      refresh_if (async_set_bluetooth dev payload "POST")
  end.

(** [WlanthermoBluetoothEnabledSwitch.is_on] *)
Definition bluetooth_is_on (s : store) : bool :=
  match data s with
  | None => false
  | Some d =>
      match bluetooth d with
      | None => false
      | Some bt => truthy (bt_enabled bt)
      end
  end.

(** [WlanthermoBluetoothEnabledSwitch.async_turn_on] and [async_turn_off] *)
Definition bluetooth_async_turn (dev : device) (v : bool) : M store unit :=
  db <- data_bluetooth ;;
  match snd db with
  | None => ret tt
  | Some bt =>
      modify (set_data {| push := push (fst db);
                          bluetooth := Some {| bt_enabled := Bool v;
                                               devices := devices bt |} |}) ;;;
      _push dev
  end.

(** [dev.get("address") == address] *)
Definition has_address (address : string) (d : gmap string value) : Prop :=
  d !! "address"%string = Some (Str address).

#[export] Instance has_address_dec address d : Decision (has_address address d).
Proof.
  unfold has_address. destruct (d !! "address"%string) as [[| | | |s| | |]|].
  5: { destruct (String.eqb_spec s address) as [->|Hne];
         [left; reflexivity | right; congruence]. }
  all: right; congruence.
Defined.

(** [WlanthermoBluetoothProbeSwitch._get_device]: the first device with the
    switch's address, and its position. *)
Definition _get_device (address : string) (s : store)
    : option (nat * gmap string value) :=
  match data s with
  | None => None
  | Some d =>
      match bluetooth d with
      | None => None
      | Some bt => list_find (has_address address) (devices bt)
      end
  end.

(** A value used as an integer operand of [&], [|]. *)
Definition as_int (v : value) : result Z :=
  match v with
  | Int z => Ok z
  | Bool b => Ok (if b then 1 else 0)
  | _ => Raise (OtherError "TypeError")
  end.

(** [dev.get("selected", 0)] *)
Definition selected (d : gmap string value) : value :=
  default (Int 0) (d !! "selected"%string).

(** A [dict] is true unless it is empty. *)
Definition dict_truthy (d : gmap string value) : bool :=
  negb (Nat.eqb (size d) 0).

(** The helpers applied to a value taken from a [dict]: the shift is
    evaluated first, then the operand is checked to be an integer. *)
Definition on_mask {A} (f : Z -> Z -> result A) (mask : value) (bit : Z)
    : result A :=
  match shl1 bit with
  | Raise e => Raise e
  | Ok _ =>
      match as_int mask with
      | Ok m => f m bit
      | Raise e => Raise e
      end
  end.

(** [WlanthermoBluetoothProbeSwitch.is_on] *)
Definition probe_is_on (address : string) (probe : Z) (s : store) : result bool :=
  match _get_device address s with
  | None => Ok false
  | Some (_, d) =>
      if negb (dict_truthy d) then Ok false
      else on_mask is_bit_set (selected d) probe
  end.

(** [WlanthermoBluetoothProbeSwitch.available] *)
Definition probe_available (address : string) (s : store) : bool :=
  match data s with
  | None => false
  | Some d =>
      match bluetooth d with
      | None => false
      | Some bt =>
          if negb (truthy (bt_enabled bt)) then false
          else match _get_device address s with
               | Some _ => true
               | None => false
               end
      end
  end.

(** [dev["selected"] = v] on the device at position [i]. *)
Definition assign_selected (i : nat) (v : Z) (s : store) : store :=
  match data s with
  | None => s
  | Some d =>
      match bluetooth d with
      | None => s
      | Some bt =>
          set_data {| push := push d;
                      bluetooth :=
                        Some {| bt_enabled := bt_enabled bt;
                                devices :=
                                  alter (insert "selected"%string (Int v)) i
                                        (devices bt) |} |} s
      end
  end.

(** [WlanthermoBluetoothProbeSwitch.async_turn_on] ([on = true]) and
    [async_turn_off] ([on = false]). *)
Definition probe_async_turn (dev : device) (address : string) (probe : Z)
    (on : bool) : M store unit :=
  s <- get ;;
  match _get_device address s with
  | None => ret tt
  | Some (i, d) =>
      if negb (dict_truthy d) then ret tt
      else
        v <- lift (on_mask (if on then set_bit else clear_bit) (selected d) probe) ;;
        modify (assign_selected i v) ;;;
        _push dev
  end.

(** The actions a user can trigger on the switches. *)
Inductive operation : Type :=
| SetOpl (profile_id : Z) (v : bool)
| SetLink (profile_id : Z) (v : bool)
| WriteTelegram (v : bool)
| WritePushover (v : bool)
| TurnBluetooth (v : bool)
| TurnProbe (address : string) (probe : Z) (on : bool).

Definition perform (dev : device) (op : operation) : M store unit :=
  match op with
  | SetOpl profile_id v => _async_set_opl dev profile_id v
  | SetLink profile_id v => _async_set_link dev profile_id v
  | WriteTelegram v => telegram_async_write dev v
  | WritePushover v => pushover_async_write dev v
  | TurnBluetooth v => bluetooth_async_turn dev v
  | TurnProbe address probe on => probe_async_turn dev address probe on
  end.

End Serialisers.

(** Whether the device acknowledges a POST of [payload] to [endpoint]. *)
Definition acknowledged (dev : device) (endpoint : string) (payload : value) : bool :=
  let '(st, txt) := _request dev "POST" endpoint (Some payload) in
  truthy (write_ack st txt).

(** Sample data: two profiles, and one Bluetooth device with two probes. *)
Definition sample_profiles : list PidProfile :=
  [ {| id := 0; opl := Bool false; link := Int 0; supports_link := Bool false;
       other := [("Kp"%string, Int 3)] |};
    {| id := 1; opl := Bool false; link := Int 0; supports_link := Bool true;
       other := [("Kp"%string, Int 7)] |} ].

Definition sample_device : gmap string value :=
  {[ "address"%string := Str "aa:bb"; "count"%string := Int 2;
     "selected"%string := Int 0 ]}.

Definition sample_push : Push :=
  {| telegram := {| enabled := Bool false; credentials := [] |};
     pushover := {| enabled := Bool false; credentials := [] |} |}.

Definition sample_data : Data :=
  {| push := Some sample_push;
     bluetooth := Some {| bt_enabled := Bool true; devices := [sample_device] |} |}.

Definition sample_store : store :=
  {| settings := Some {| pid := Some sample_profiles |};
     data := Some sample_data;
     trace := [] |}.

(** Serialisers that always succeed, for the sample data. *)
Definition sample_to_full_payload (p : PidProfile) : result value :=
  Ok (Dict (("id"%string, Int (id p)) :: ("opl"%string, opl p)
            :: ("link"%string, link p) :: other p)).

Definition sample_provider_to_payload (p : Provider) : result value :=
  Ok (Dict (("enabled"%string, enabled p) :: credentials p)).

Definition sample_bluetooth_to_payload (b : Bluetooth) : result value :=
  Ok (Dict [("enabled"%string, bt_enabled b)]).

End Entities.

End Switch.

(** ** Theorems *)

(** *** api.py *)

Module ApiFacts.
Import Py Api.
Local Open Scope string_scope.

Ltac by_cases_on_char c :=
  destruct c as [[] [] [] [] [] [] [] []]; vm_compute; intros; try discriminate; auto.

Lemma lower_char_t c : lower_char c = "t"%char -> (c = "t" \/ c = "T")%char.
Proof. by_cases_on_char c. Qed.

Lemma lower_char_r c : lower_char c = "r"%char -> (c = "r" \/ c = "R")%char.
Proof. by_cases_on_char c. Qed.

Lemma lower_char_u c : lower_char c = "u"%char -> (c = "u" \/ c = "U")%char.
Proof. by_cases_on_char c. Qed.

Lemma lower_char_e c : lower_char c = "e"%char -> (c = "e" \/ c = "E")%char.
Proof. by_cases_on_char c. Qed.

Lemma lower_true_inv core : lower core = "true" -> true_any_case core.
Proof.
  destruct core as [|c1 [|c2 [|c3 [|c4 [|c5 rest]]]]]; simpl; try discriminate.
  intros [= H1 H2 H3 H4]. exists c1, c2, c3, c4. split; [reflexivity|].
  repeat split;
    [apply lower_char_t | apply lower_char_r | apply lower_char_u | apply lower_char_e];
    assumption.
Qed.

Lemma true_any_case_lower core : true_any_case core -> lower core = "true".
Proof.
  intros (c1 & c2 & c3 & c4 & -> & [-> | ->] & [-> | ->] & [-> | ->] & [-> | ->]);
    reflexivity.
Qed.

Lemma true_any_case_strip core : true_any_case core -> strip core = core.
Proof.
  intros (c1 & c2 & c3 & c4 & -> & [-> | ->] & [-> | ->] & [-> | ->] & [-> | ->]);
    reflexivity.
Qed.

Lemma append_nil_l (s : string) : "" ++ s = s.
Proof. reflexivity. Qed.

Lemma append_cons (c : ascii) (a b : string) :
  String c a ++ b = String c (a ++ b).
Proof. reflexivity. Qed.

Lemma all_space_app a b : all_space a -> all_space b -> all_space (a ++ b).
Proof.
  induction a as [|c a IH]; [intros _ H; exact H|].
  intros [Hc Ha] Hb. rewrite append_cons. split; [exact Hc | exact (IH Ha Hb)].
Qed.

(** What [lstrip] removes is whitespace. *)
Lemma lstrip_split s : exists pre, s = pre ++ lstrip s /\ all_space pre.
Proof.
  induction s as [|c s (pre & Hs & Hpre)].
  - exists "". split; [reflexivity | exact I].
  - simpl lstrip. destruct (isspace c) eqn:Hc.
    + exists (String c pre). rewrite append_cons, <- Hs.
      split; [reflexivity | split; assumption].
    + exists "". split; [reflexivity | exact I].
Qed.

(** What [rstrip] removes is whitespace. *)
Lemma rstrip_split s : exists post, s = rstrip s ++ post /\ all_space post.
Proof.
  induction s as [|c s (post & Hs & Hpost)].
  - exists "". split; [reflexivity | exact I].
  - simpl rstrip. destruct (rstrip s) as [|d r] eqn:Hr.
    + rewrite append_nil_l in Hs. subst post. destruct (isspace c) eqn:Hc.
      * exists (String c s). split; [reflexivity | split; assumption].
      * exists s. split; [reflexivity | assumption].
    + exists post. rewrite append_cons, <- Hs. split; [reflexivity | assumption].
Qed.

Lemma strip_split s :
  exists pre post, s = pre ++ strip s ++ post /\ all_space pre /\ all_space post.
Proof.
  destruct (lstrip_split s) as (pre & Hs & Hpre).
  destruct (rstrip_split (lstrip s)) as (post & Hl & Hpost).
  exists pre, post. unfold strip. rewrite <- Hl. auto.
Qed.

Lemma lstrip_all_space pre s : all_space pre -> lstrip (pre ++ s) = lstrip s.
Proof.
  induction pre as [|c pre IH]; [reflexivity|].
  intros [Hc Hp]. rewrite append_cons. simpl lstrip. rewrite Hc. exact (IH Hp).
Qed.

Lemma rstrip_only_space post : all_space post -> rstrip post = "".
Proof.
  induction post as [|c post IH]; [reflexivity|].
  intros [Hc Hp]. simpl rstrip. rewrite (IH Hp), Hc. reflexivity.
Qed.

Lemma rstrip_all_space s post : all_space post -> rstrip (s ++ post) = rstrip s.
Proof.
  intros Hp. induction s as [|c s IH].
  - rewrite append_nil_l. apply rstrip_only_space, Hp.
  - rewrite append_cons. simpl rstrip. rewrite IH. reflexivity.
Qed.

Lemma lstrip_rstrip_comm_true core :
  true_any_case core -> lstrip core = core /\ rstrip core = core.
Proof.
  intros (c1 & c2 & c3 & c4 & -> & [-> | ->] & [-> | ->] & [-> | ->] & [-> | ->]);
    split; reflexivity.
Qed.

(** The trim-and-lowercase test of the code agrees with the specification's
    wording. *)
Lemma strip_lower_true_iff body :
  lower (strip body) = "true" <-> body_is_true body.
Proof.
  split.
  - intros H. destruct (strip_split body) as (pre & post & Hb & Hpre & Hpost).
    exists pre, (strip body), post. auto using lower_true_inv.
  - intros (pre & core & post & -> & Hpre & Hpost & Hcore).
    destruct (lstrip_rstrip_comm_true core Hcore) as [Hl Hr].
    unfold strip. rewrite lstrip_all_space by assumption.
    assert (lstrip (core ++ post) = core ++ post) as ->.
    { destruct Hcore as (c1 & c2 & c3 & c4 & -> & [-> | ->] & _); reflexivity. }
    rewrite rstrip_all_space, Hr by assumption.
    apply true_any_case_lower, Hcore.
Qed.

Lemma write_ack_truthy st txt :
  truthy (write_ack st txt) = true
  <-> st = Some 200%Z /\ exists t, txt = Some t /\ lower (strip t) = "true".
Proof.
  unfold write_ack. simpl. case_bool_decide as Hst; simpl.
  - destruct txt as [t|]; simpl.
    + destruct (String.eqb_spec t "") as [->|Hne]; simpl.
      * split; [discriminate|]. intros (_ & t & [= <-] & H). discriminate.
      * rewrite String.eqb_eq. split.
        -- intros H. eauto.
        -- intros (_ & t' & [= <-] & H). exact H.
    + split; [discriminate|]. intros (_ & t & [=] & _).
  - split; [discriminate|]. intros [H _]. contradiction.
Qed.

Lemma write_helper_unfold e dev arg method :
  write_helper e dev arg method
  = let '(st, txt) :=
      _request dev method (endpoint_path e) (Some (wire_payload e arg)) in
    write_ack st txt.
Proof. destruct e; reflexivity. Qed.

(** C3: for every write endpoint and every way the device can react, the
    write helper reports success (returns a true value) if and only if the
    request was answered with status 200 and a body that, trimmed of
    surrounding whitespace and compared without regard to case, is [true]. *)
Theorem write_success_iff (e : write_endpoint) (dev : device)
    (arg : value) (method : string) :
  truthy (write_helper e dev arg method) = true
  <-> exists resp body,
        dev (lower method) (endpoint_path e) (Some (wire_payload e arg))
          = Responded resp
        /\ status resp = 200%Z /\ text resp = Ok body /\ body_is_true body.
Proof.
  rewrite write_helper_unfold. unfold _request.
  destruct (dev _ _ _) as [err|resp] eqn:Hdev.
  - rewrite write_ack_truthy. split.
    + intros [[=] _].
    + intros (r & b & [=] & _).
  - destruct (text resp) as [t|err] eqn:Ht; rewrite write_ack_truthy.
    + split.
      * intros ([= H200] & t' & [= <-] & Hlow).
        exists resp, t. rewrite <- strip_lower_true_iff. auto.
      * intros (r & b & [= <-] & H200 & Hb & Htrue).
        rewrite Ht in Hb. injection Hb as <-.
        split; [congruence|]. exists t. rewrite strip_lower_true_iff. auto.
    + split.
      * intros [[=] _].
      * intros (r & b & [= <-] & _ & Hb & _). congruence.
Qed.

Example write_ack_examples :
  truthy (async_set_push (constant_device 200 " TrUe  ") None_ "POST") = true
  /\ truthy (async_set_push (constant_device 200 "false") None_ "POST") = false
  /\ truthy (async_set_push (constant_device 200 "") None_ "POST") = false
  /\ truthy (async_set_push (constant_device 500 "true") None_ "POST") = false
  /\ truthy (async_set_iot (fun _ _ _ => Failed (OtherError "timeout")) None_ "PUT")
     = false.
Proof. repeat split; reflexivity. Qed.

End ApiFacts.

(** *** __init__.py *)

Module CoordinatorFacts.
Import Py Api Coordinator.

(** A fetch fails or comes back empty exactly when [_get] returns a false
    value. *)
Lemma fetch_fails_or_empty_iff dev endpoint :
  fetch_fails_or_empty dev endpoint <-> truthy (_get dev endpoint) = false.
Proof.
  unfold _get. split.
  - intros [e H | resp H Hst | resp e H Hj | resp v H Hj Hv]; rewrite H.
    + reflexivity.
    + apply Z.eqb_neq in Hst. rewrite Hst. reflexivity.
    + destruct (status resp =? 200); [rewrite Hj|]; reflexivity.
    + destruct (status resp =? 200); [rewrite Hj; exact Hv | reflexivity].
  - destruct (dev "get" endpoint None) as [e|resp] eqn:H.
    + intros _. eapply fetch_raises, H.
    + destruct (Z.eqb_spec (status resp) 200) as [Hst|Hst]; simpl.
      * destruct (json resp) as [v|e] eqn:Hj.
        -- intros Hv. eapply fetch_empty; eassumption.
        -- intros _. eapply fetch_not_json; eassumption.
      * intros _. eapply fetch_bad_status; eassumption.
Qed.

Section PollCycle.
Context {SettingsData WlanthermoData : Type}.
Variable from_json : value -> result SettingsData.
Variable new_WlanthermoData : value -> result WlanthermoData.

Abbreviation cycle := (async_update_data from_json new_WlanthermoData).

(** The update method never raises: whatever happens inside is caught. *)
Lemma async_update_data_never_raises dev w : is_ok (fst (cycle dev w)) = true.
Proof.
  unfold async_update_data, try_except, bind, ret, lift, modify, get_data,
    get_settings.
  destruct (truthy (_get dev "/data")); simpl; [|reflexivity].
  destruct (truthy (_get dev "/settings")); simpl.
  - destruct (from_json _); simpl; destruct (new_WlanthermoData _); reflexivity.
  - destruct (new_WlanthermoData _); reflexivity.
Qed.

(** The update method never writes the published snapshot. *)
Lemma async_update_data_published dev w :
  published (snd (cycle dev w)) = published w.
Proof.
  unfold async_update_data, try_except, bind, ret, lift, modify, get_data,
    get_settings.
  destruct (truthy (_get dev "/data")); simpl; [|reflexivity].
  destruct (truthy (_get dev "/settings")); simpl.
  - destruct (from_json _); simpl; destruct (new_WlanthermoData _); reflexivity.
  - destruct (new_WlanthermoData _); reflexivity.
Qed.

(** The cached settings after a cycle: the freshly parsed ones when
    [/settings] was fetched and parsed in a cycle that got telemetry,
    the old ones otherwise. *)
Lemma async_update_data_settings dev w :
  api_settings (snd (cycle dev w))
  = if truthy (get_data dev) && truthy (get_settings dev)
    then match from_json (get_settings dev) with
         | Ok v => Some v
         | Raise _ => api_settings w
         end
    else api_settings w.
Proof.
  unfold async_update_data, try_except, bind, ret, lift, modify, get_data,
    get_settings.
  destruct (truthy (_get dev "/data")); simpl; [|reflexivity].
  destruct (truthy (_get dev "/settings")); simpl.
  - destruct (from_json _); simpl; destruct (new_WlanthermoData _); reflexivity.
  - destruct (new_WlanthermoData _); reflexivity.
Qed.

(** C1: in every poll cycle whose [/data] fetch fails or returns an empty
    payload, the update method returns [None] without raising, and
    nothing it could reach is written: the published snapshot and the
    cached settings are what they were. *)
Theorem data_fetch_failure_yields_no_snapshot dev w :
  fetch_fails_or_empty dev "/data" ->
  cycle dev w = (Ok None, w).
Proof.
  intros H. apply fetch_fails_or_empty_iff in H.
  unfold async_update_data, try_except, get_data. rewrite H. reflexivity.
Qed.

(** C2: in every poll cycle whose [/data] fetch succeeds and yields a
    snapshot, the update method returns that snapshot; if the
    [/settings] fetch fails or returns empty the cached settings are
    unchanged; and whenever the cache does change, a [/settings] fetch
    succeeded and the cache holds what was parsed from it. *)
Theorem settings_failure_keeps_cache dev w snap :
  truthy (get_data dev) = true ->
  new_WlanthermoData (get_data dev) = Ok snap ->
  fst (cycle dev w) = Ok (Some snap)
  /\ published (snd (cycle dev w)) = published w
  /\ (fetch_fails_or_empty dev "/settings" -> snd (cycle dev w) = w)
  /\ (api_settings (snd (cycle dev w)) <> api_settings w ->
      exists v, truthy (get_settings dev) = true
                /\ from_json (get_settings dev) = Ok v
                /\ api_settings (snd (cycle dev w)) = Some v).
Proof.
  intros Hdata Hsnap. split; [|split; [|split]].
  - unfold async_update_data, try_except, bind, ret, lift, modify.
    rewrite Hdata, Hsnap. simpl.
    destruct (truthy (get_settings dev)); simpl; [|reflexivity].
    destruct (from_json _); reflexivity.
  - apply async_update_data_published.
  - intros H. apply fetch_fails_or_empty_iff in H.
    unfold async_update_data, try_except, bind, ret, lift, modify.
    rewrite Hdata, Hsnap. unfold get_settings. rewrite H. reflexivity.
  - rewrite async_update_data_settings, Hdata. simpl.
    destruct (truthy (get_settings dev)); [|congruence].
    destruct (from_json (get_settings dev)) as [v|e]; [|congruence].
    intros _. exists v. auto.
Qed.

End PollCycle.

Lemma data_fetch_failure_yields_no_snapshot_witness :
  fetch_fails_or_empty offline_device "/data"
  /\ async_update_data (@Ok value) (@Ok value) offline_device sample_store
     = (Ok None, sample_store).
Proof.
  assert (fetch_fails_or_empty offline_device "/data") as H.
  { eapply fetch_raises. reflexivity. }
  split; [exact H|].
  exact (data_fetch_failure_yields_no_snapshot Ok Ok offline_device sample_store H).
Defined.

Lemma settings_failure_keeps_cache_witness :
  fetch_fails_or_empty telemetry_only_device "/settings"
  /\ fst (async_update_data (@Ok value) (@Ok value) telemetry_only_device sample_store)
     = Ok (Some sample_telemetry)
  /\ snd (async_update_data (@Ok value) (@Ok value) telemetry_only_device sample_store)
     = sample_store.
Proof.
  assert (fetch_fails_or_empty telemetry_only_device "/settings") as H.
  { eapply fetch_bad_status; [reflexivity | simpl; lia]. }
  destruct (settings_failure_keeps_cache (@Ok value) (@Ok value)
              telemetry_only_device sample_store sample_telemetry
              eq_refl eq_refl) as (Hres & _ & Hframe & _).
  split; [exact H|]. split; [exact Hres | exact (Hframe H)].
Defined.

End CoordinatorFacts.

(** *** sensor.py *)

Module SensorFacts.
Import Py Sensor.
Local Open Scope Q_scope.

(** **** Arithmetic of the estimate *)

Lemma Qltb_true x y : Qltb x y = true <-> x < y.
Proof.
  unfold Qltb. rewrite negb_true_iff, <- not_true_iff_false, Qle_bool_iff.
  split; [apply Qnot_le_lt | apply Qlt_not_le].
Qed.

Lemma Qltb_false x y : Qltb x y = false <-> y <= x.
Proof. unfold Qltb. rewrite negb_false_iff. apply Qle_bool_iff. Qed.

Lemma max0_nonneg x : 0 <= max0 x.
Proof.
  unfold max0. destruct (Qltb x 0) eqn:H.
  - apply Qle_refl.
  - apply Qltb_false, H.
Qed.

Lemma round2_nonneg x : 0 <= x -> 0 <= round2 x.
Proof.
  intros Hx. unfold round2. rewrite Qred_correct.
  assert (0 <= Qfloor (x * 100))%Z as Hn.
  { change 0%Z with (Qfloor 0). apply Qfloor_resp_le. nra. }
  set (n := Qfloor (x * 100)) in *.
  assert (forall m : Z, (0 <= m)%Z -> 0 <= m # 100) as Hm.
  { intros m H. unfold Qle. simpl. lia. }
  destruct (Qltb _ _); [auto|].
  destruct (Qltb _ _); [apply Hm; lia|].
  destruct (Z.even n); apply Hm; lia.
Qed.

(** **** The deque *)

Lemma deque_append_Forall {A} (P : A -> Prop) maxlen x (d : list A) :
  P x -> Forall P d -> Forall P (deque_append maxlen x d).
Proof.
  intros Hx Hd. unfold deque_append. apply Forall_drop, Forall_app.
  split; [exact Hd | constructor; [exact Hx | constructor]].
Qed.

Lemma deque_append_bounded {A} maxlen x (d : list A) :
  (length d <= maxlen -> length (deque_append maxlen x d) <= maxlen)%nat.
Proof.
  intros H. unfold deque_append. rewrite length_drop, length_app. simpl. lia.
Qed.

(** **** [WlanthermoChannelTimeLeftSensor.native_value] *)

Section TimeLeft.
Import ChannelTimeLeft.

(** Without a usable reading nothing is reported and nothing is buffered. *)
Lemma native_value_skips c now self :
  available c self = false
  \/ _get_channel c self = None
  \/ (exists channel, _get_channel c self = Some channel /\ temp channel = None) ->
  native_value c now self = (None, self).
Proof.
  unfold native_value. intros [H | [H | (channel & H & Ht)]].
  - rewrite H. reflexivity.
  - rewrite H. simpl. rewrite orb_true_r. reflexivity.
  - rewrite H. simpl. destruct (available c self); simpl; [|reflexivity].
    rewrite Ht. reflexivity.
Qed.

(** With a usable reading, the reading is buffered and the estimate is
    made from the samples in the window. *)
Lemma native_value_estimates c now self channel t :
  available c self = true ->
  _get_channel c self = Some channel ->
  temp channel = Some t ->
  native_value c now self
  = let self' := buffered now t self in
    let recent := in_window self' now in
    (if (length recent <? 2)%nat then None
     else match ends recent with
          | None => None
          | Some (first, last) => estimate channel t first last
          end,
     self').
Proof.
  intros Hav Hch Ht. unfold native_value. rewrite Hav, Hch. simpl.
  rewrite Ht. fold (buffered now t self). fold (in_window (buffered now t self) now).
  destruct (length _ <? 2)%nat; [reflexivity|].
  destruct (ends _) as [[first last]|]; [|reflexivity].
  unfold estimate. destruct (_ || _); [reflexivity|].
  destruct (ch_max channel); reflexivity.
Qed.

(** Every evaluation is of one of the two kinds. *)
Lemma native_value_cases c now self :
  native_value c now self = (None, self)
  \/ exists channel t,
       available c self = true
       /\ _get_channel c self = Some channel
       /\ temp channel = Some t.
Proof.
  destruct (available c self) eqn:Hav;
    [|left; apply native_value_skips; auto].
  destruct (_get_channel c self) as [channel|] eqn:Hch;
    [|left; apply native_value_skips; auto].
  destruct (temp channel) as [t|] eqn:Ht;
    [|left; apply native_value_skips; eauto].
  right. eauto.
Qed.

Lemma estimate_nonneg channel t first last v :
  estimate channel t first last = Some v -> 0 <= v.
Proof.
  unfold estimate. destruct (_ || _).
  - intros [= <-]. apply Qle_refl.
  - destruct (ch_max channel); [|discriminate].
    intros [= <-]. apply round2_nonneg, max0_nonneg.
Qed.

Lemma available_not_sentinel c self channel :
  available c self = true ->
  _get_channel c self = Some channel ->
  truthy (show_inactive_unavailable (config_entry c)) = true ->
  is_sentinel (temp channel) = false.
Proof.
  unfold available. intros Hav Hch Hshow. rewrite Hch, Hshow in Hav.
  destruct (last_update_success c); simpl in Hav; [|discriminate].
  destruct (data_system c); [|discriminate].
  destruct (is_sentinel (temp channel)); [discriminate | reflexivity].
Qed.

(** C4 (as the code computes it): with the sample [(0, 50)] buffered, a
    reading of 60 taken at time 300, a target of 70 and a window of 300
    seconds, the time left is 5 minutes. *)
Theorem time_left_example c self channel :
  available c self = true ->
  _get_channel c self = Some channel ->
  temp channel = Some 60 ->
  ch_max channel = Some 70 ->
  _history self = [(0, 50)] ->
  _window_seconds self = 300 ->
  fst (native_value c 300 self) = Some 5.
Proof.
  intros Hav Hch Ht Hmax Hh Hw.
  rewrite (native_value_estimates c 300 self channel 60 Hav Hch Ht).
  unfold buffered, in_window, set_history, estimate. simpl.
  rewrite Hh, Hw, Hmax. reflexivity.
Qed.

Lemma time_left_example_witness :
  fst (native_value (sample_coordinator 60 ∅) 300 (sample_sensor [(0, 50)]))
  = Some 5.
Proof.
  apply (time_left_example (sample_coordinator 60 ∅) (sample_sensor [(0, 50)])
           (sample_channel 60)); vm_compute; reflexivity.
Defined.

(** C4 as stated fails: on those inputs the time left is not 300. *)
Lemma time_left_example_is_not_300 :
  exists v,
    fst (native_value (sample_coordinator 60 ∅) 300 (sample_sensor [(0, 50)]))
    = Some v
    /\ ~ v == 300.
Proof. exists 5. split; [vm_compute; reflexivity | discriminate]. Qed.

(** C5 (as the code behaves): while the option
    [show_inactive_unavailable] is on, as it is by default, a reading equal
    to the sentinel 999.0 is not buffered, and the history of a sensor never
    comes to hold a sentinel sample. *)
Theorem sentinel_not_buffered c now self :
  truthy (show_inactive_unavailable (config_entry c)) = true ->
  (forall channel,
      _get_channel c self = Some channel ->
      is_sentinel (temp channel) = true ->
      native_value c now self = (None, self))
  /\ (Forall (fun x => is_sentinel (Some (snd x)) = false) (_history self) ->
      Forall (fun x => is_sentinel (Some (snd x)) = false)
             (_history (snd (native_value c now self)))).
Proof.
  intros Hshow. split.
  - intros channel Hch Hs. apply native_value_skips. left.
    destruct (available c self) eqn:Hav; [|reflexivity].
    rewrite (available_not_sentinel c self channel Hav Hch Hshow) in Hs.
    discriminate.
  - intros Hh.
    destruct (native_value_cases c now self) as [-> | (channel & t & Hav & Hch & Ht)];
      [exact Hh|].
    rewrite (native_value_estimates c now self channel t Hav Hch Ht). simpl.
    apply deque_append_Forall; [|exact Hh]. simpl.
    pose proof (available_not_sentinel c self channel Hav Hch Hshow) as Hn.
    rewrite Ht in Hn. exact Hn.
Qed.

Lemma sentinel_not_buffered_witness :
  native_value (sample_coordinator 999 ∅) 300 (sample_sensor [(0, 50)])
  = (None, sample_sensor [(0, 50)]).
Proof.
  assert (truthy (show_inactive_unavailable
                    (config_entry (sample_coordinator 999 ∅))) = true) as Hshow
    by (vm_compute; reflexivity).
  apply (proj1 (sentinel_not_buffered (sample_coordinator 999 ∅) 300
                  (sample_sensor [(0, 50)]) Hshow)
           (sample_channel 999)); vm_compute; reflexivity.
Defined.

(** C5 as stated fails: with the option switched off, a sentinel reading
    is buffered. *)
Lemma sentinel_buffered_when_option_off :
  is_sentinel (temp (sample_channel 999)) = true
  /\ _history (snd (native_value (sample_coordinator 999 show_inactive_off) 300
                      (sample_sensor [(0, 50)])))
     = [(0, 50); (300, 999)].
Proof. split; vm_compute; reflexivity. Qed.

(** C6: when an estimate is made from the earliest and the latest sample
    in the window, an elapsed time or a temperature change that is not
    positive gives a time left of 0; and whatever the inputs, a reported
    time left is never negative. *)
Theorem time_left_zero_and_never_negative c now self :
  (forall channel t first last,
      available c self = true ->
      _get_channel c self = Some channel ->
      temp channel = Some t ->
      (2 <= length (in_window (buffered now t self) now))%nat ->
      ends (in_window (buffered now t self) now) = Some (first, last) ->
      fst last - fst first <= 0 \/ snd last - snd first <= 0 ->
      fst (native_value c now self) = Some 0)
  /\ (forall v, fst (native_value c now self) = Some v -> 0 <= v).
Proof.
  split.
  - intros channel t first last Hav Hch Ht Hlen Hends Hle.
    rewrite (native_value_estimates c now self channel t Hav Hch Ht). simpl.
    apply Nat.ltb_ge in Hlen. rewrite Hlen, Hends. unfold estimate.
    assert (Qle_bool (fst last - fst first) 0
            || Qle_bool (snd last - snd first) 0 = true) as ->; [|reflexivity].
    apply orb_true_iff. rewrite !Qle_bool_iff. exact Hle.
  - intros v.
    destruct (native_value_cases c now self) as [-> | (channel & t & Hav & Hch & Ht)];
      [discriminate|].
    rewrite (native_value_estimates c now self channel t Hav Hch Ht). simpl.
    destruct (length _ <? 2)%nat; [discriminate|].
    destruct (ends _) as [[first last]|]; [|discriminate].
    apply estimate_nonneg.
Qed.

Lemma time_left_zero_and_never_negative_witness :
  fst (native_value (sample_coordinator 40 ∅) 300 (sample_sensor [(0, 50)]))
  = Some 0
  /\ 0 <= 5.
Proof.
  pose proof (time_left_zero_and_never_negative (sample_coordinator 40 ∅) 300
                (sample_sensor [(0, 50)])) as [Hzero _].
  pose proof (time_left_zero_and_never_negative (sample_coordinator 60 ∅) 300
                (sample_sensor [(0, 50)])) as [_ Hnonneg].
  split.
  - apply (Hzero (sample_channel 40) 40 (0, 50) (300, 40));
      try (vm_compute; reflexivity).
    right. vm_compute. discriminate.
  - apply (Hnonneg 5). vm_compute. reflexivity.
Defined.

(** C8: if fewer than two samples of the history fall in the window at
    the time of evaluation, nothing is reported ([None]): neither zero nor
    an exception. *)
Theorem fewer_than_two_samples_unknown c now self :
  (length (in_window (snd (native_value c now self)) now) < 2)%nat ->
  fst (native_value c now self) = None.
Proof.
  destruct (native_value_cases c now self) as [-> | (channel & t & Hav & Hch & Ht)];
    [reflexivity|].
  rewrite (native_value_estimates c now self channel t Hav Hch Ht). simpl.
  intros Hlen. apply Nat.ltb_lt in Hlen. rewrite Hlen. reflexivity.
Qed.

Lemma fewer_than_two_samples_unknown_witness :
  _history (snd (native_value (sample_coordinator 60 ∅) 301
                   (sample_sensor [(0, 50)])))
  = [(0, 50); (301, 60)]
  /\ fst (native_value (sample_coordinator 60 ∅) 301 (sample_sensor [(0, 50)]))
     = None.
Proof.
  split; [vm_compute; reflexivity|].
  apply (fewer_than_two_samples_unknown (sample_coordinator 60 ∅) 301
           (sample_sensor [(0, 50)])).
  apply Nat.ltb_lt. vm_compute. reflexivity.
Defined.

End TimeLeft.

(** **** [WlanthermoPitmasterTemperatureSensor.native_value] *)

Section PitmasterTemperature.
Import PitmasterTemperature.

Lemma show_inactive_not_global : globals !! "show_inactive"%string = None.
Proof. vm_compute. reflexivity. Qed.

(** C9: when the pitmaster's channel exists and Python's builtins do not
    bind [show_inactive], a temperature equal to the sentinel 999.0 makes
    the evaluation raise [NameError] for [show_inactive]; any other
    temperature is returned as it is. *)
Theorem pitmaster_temperature_name_error builtins c self channel :
  builtins !! "show_inactive"%string = None ->
  _get_channel c self = Some channel ->
  (forall t, temp channel = Some t -> t == 999 ->
             native_value builtins c self = Raise (NameError "show_inactive"))
  /\ ((forall t, temp channel = Some t -> ~ t == 999) ->
      native_value builtins c self = Ok (temp channel)).
Proof.
  intros Hb Hch. unfold native_value. rewrite Hch. split.
  - intros t Ht Heq. rewrite Ht. unfold is_sentinel.
    apply Qeq_bool_iff in Heq. rewrite Heq.
    unfold load_global. rewrite show_inactive_not_global, Hb. reflexivity.
  - intros Hne. unfold is_sentinel.
    destruct (temp channel) as [t|]; [|reflexivity].
    destruct (Qeq_bool t 999) eqn:Heq; [|reflexivity].
    apply Qeq_bool_iff in Heq. destruct (Hne t eq_refl Heq).
Qed.

Lemma pitmaster_temperature_name_error_witness :
  native_value some_builtins (sample_coordinator 999 ∅) {| _pitmaster_id := 0 |}
  = Raise (NameError "show_inactive")
  /\ native_value some_builtins (sample_coordinator 60 ∅) {| _pitmaster_id := 0 |}
     = Ok (Some 60).
Proof.
  assert (some_builtins !! "show_inactive"%string = None) as Hb
    by (vm_compute; reflexivity).
  split.
  - assert (_get_channel (sample_coordinator 999 ∅) {| _pitmaster_id := 0 |}
            = Some (sample_channel 999)) as Hch by (vm_compute; reflexivity).
    apply (proj1 (pitmaster_temperature_name_error some_builtins
                     (sample_coordinator 999 ∅) {| _pitmaster_id := 0 |}
                     (sample_channel 999) Hb Hch) 999); reflexivity.
  - assert (_get_channel (sample_coordinator 60 ∅) {| _pitmaster_id := 0 |}
            = Some (sample_channel 60)) as Hch by (vm_compute; reflexivity).
    apply (proj2 (pitmaster_temperature_name_error some_builtins
                     (sample_coordinator 60 ∅) {| _pitmaster_id := 0 |}
                     (sample_channel 60) Hb Hch)).
    intros t [= <-]. vm_compute. discriminate.
Defined.

End PitmasterTemperature.

End SensorFacts.

(** *** button.py *)

Module ButtonFacts.
Import Py Api Button.
Local Open Scope Q_scope.

Lemma writes_app t1 t2 : writes (t1 ++ t2) = writes t1 ++ writes t2.
Proof. unfold writes. apply List.filter_app. Qed.

Lemma debounced_true now s :
  debounced now s = true <-> now - _last_press s < DEBOUNCE_SECONDS.
Proof. apply SensorFacts.Qltb_true. Qed.

Lemma debounced_false now s :
  debounced now s = false <-> DEBOUNCE_SECONDS <= now - _last_press s.
Proof. apply SensorFacts.Qltb_false. Qed.

Ltac run_press :=
  unfold async_press, telegram_async_press, pushover_async_press,
    newtoken_async_press, call_async_set_push, call_request_newtoken,
    data_push, assign_CLtoken, emit, try_except, bind, get, put, modify, lift,
    ret, raise, set_last_press;
  cbn beta iota.

Ltac split_cases :=
  repeat match goal with
         | |- context [match ?x with _ => _ end] =>
             lazymatch x with
             | context [match _ with _ => _ end] => fail
             | _ => idtac
             end;
             destruct x eqn:?; cbn beta iota delta [fst snd _last_press data trace
                                                     push settings iot telegram pushover]
         end.

(** Every shape the reachable data can have. *)
Ltac split_store s :=
  let lp := fresh "lp" in
  let tr := fresh "tr" in
  destruct s as [lp [[[[[?|?] [?|?]]|] [[[?|]]|]]|] tr];
  cbn beta iota delta [fst snd _last_press data trace
                         push settings iot telegram pushover].

(** A press inside the cool-down does nothing at all. *)
Lemma press_debounced a dev now s :
  debounced now s = true -> async_press a dev now s = (Ok tt, s).
Proof. intros H. destruct a; run_press; rewrite H; reflexivity. Qed.

(** A press outside the cool-down records its time, even when it then
    raises. *)
Lemma press_records_time a dev now s :
  debounced now s = false -> _last_press (snd (async_press a dev now s)) = now.
Proof.
  intros H.
  destruct a; run_press; rewrite H; split_store s; split_cases; reflexivity.
Qed.

(** A press outside the cool-down that returns normally has sent exactly
    one request to the device. *)
Lemma press_writes_once a dev now s :
  debounced now s = false ->
  fst (async_press a dev now s) = Ok tt ->
  exists w, writes (trace (snd (async_press a dev now s))) = writes (trace s) ++ [w].
Proof.
  intros H.
  destruct a; run_press; rewrite H; split_store s; split_cases;
    try discriminate; intros _;
    rewrite ?writes_app; cbn [writes List.filter app];
    rewrite ?app_nil_r; eauto.
Qed.

(** No press sends more than one request to the device. *)
Lemma press_writes_at_most_once a dev now s :
  (length (writes (trace (snd (async_press a dev now s))))
   <= S (length (writes (trace s))))%nat.
Proof.
  destruct a; run_press; split_store s; split_cases;
    rewrite ?writes_app, ?length_app; cbn [writes List.filter app length]; lia.
Qed.

(** The requests a press outside the cool-down adds to the trace: the one
    request of its action when it can be built, none otherwise. *)
Lemma press_writes_exact a dev now s :
  debounced now s = false ->
  writes (trace (snd (async_press a dev now s)))
  = writes (trace s)
    ++ match expected_request a s with Some w => [w] | None => [] end.
Proof.
  intros H.
  destruct a; run_press; unfold expected_request; rewrite H; split_store s;
    split_cases; rewrite ?writes_app; cbn [writes List.filter app];
    rewrite ?app_nil_r; reflexivity.
Qed.

(** C7 (as the code behaves): for each debounced action, when an invocation
    that is acted upon (it comes at least 5 time units after the last press
    that was acted upon) is followed by a second one strictly less than 5
    time units later, the second returns normally, changes nothing and sends
    nothing; the pair sends exactly the one request of the first invocation
    when that request can be built (always for the new token; for the test
    buttons when the snapshot has a push section whose provider
    serialises), and no request otherwise. *)
Theorem second_press_is_noop (a : action) (dev1 dev2 : device) (s : store)
    (t1 t2 : Q) :
  DEBOUNCE_SECONDS <= t1 - _last_press s ->
  t2 - t1 < DEBOUNCE_SECONDS ->
  let first := async_press a dev1 t1 s in
  let second := async_press a dev2 t2 (snd first) in
  second = (Ok tt, snd first)
  /\ writes (trace (snd second))
     = writes (trace s)
       ++ match expected_request a s with Some w => [w] | None => [] end.
Proof.
  intros H1 H2 first second.
  apply debounced_false in H1.
  assert (second = (Ok tt, snd first)) as Hsecond.
  { apply press_debounced, debounced_true.
    unfold first. rewrite (press_records_time a dev1 t1 s H1). exact H2. }
  rewrite Hsecond. cbn [snd]. split; [reflexivity|].
  apply press_writes_exact, H1.
Qed.

Lemma second_press_is_noop_witness :
  let dev := constant_device 200 "true" in
  let first := async_press TelegramTest dev 100 (init (Some sample_data)) in
  let second := async_press TelegramTest dev 104 (snd first) in
  second = (Ok tt, snd first)
  /\ writes (trace (snd second))
     = [DeviceRequest "POST" "/setpush"
          (Some (Dict [("test"%string, Bool true);
                       ("telegram"%string,
                        Dict [("enabled"%string, Bool true)])]))].
Proof.
  intros dev first second.
  destruct (second_press_is_noop TelegramTest dev dev (init (Some sample_data))
              100 104) as (Hnoop & Hwrites).
  - vm_compute. discriminate.
  - vm_compute. reflexivity.
  - split; [exact Hnoop | exact Hwrites].
Defined.

(** C7 as stated fails in two ways. A press that comes 2 time units after
    the prior invocation is acted upon when that prior invocation was itself
    suppressed: the cool-down runs from the last press that was acted upon.
    And a pair whose first press raises before sending (no snapshot) sends
    no request at all. *)
Lemma second_press_counterexample :
  let dev := constant_device 200 "true" in
  (let s1 := snd (async_press PushoverTest dev 100 (init (Some sample_data))) in
   let s2 := snd (async_press PushoverTest dev 104 s1) in
   let third := async_press PushoverTest dev 106 s2 in
   106 - 104 < DEBOUNCE_SECONDS
   /\ third <> (Ok tt, s2)
   /\ length (writes (trace (snd third))) = S (length (writes (trace s2))))
  /\ (let first := async_press TelegramTest dev 100 (init None) in
      let second := async_press TelegramTest dev 104 (snd first) in
      104 - 100 < DEBOUNCE_SECONDS
      /\ writes (trace (snd second)) = []).
Proof.
  vm_compute. repeat split; try reflexivity. discriminate.
Qed.

End ButtonFacts.

(** *** switch.py *)

Module SwitchFacts.
Import Switch.

Lemma is_bit_set_testbit mask bit :
  0 <= bit -> is_bit_set mask bit = Py.Ok (Z.testbit mask bit).
Proof.
  intros Hb. unfold is_bit_set, shl1.
  destruct (Z.ltb_spec bit 0) as [?|_]; [lia|]. f_equal. simpl.
  rewrite Z.shiftl_1_l.
  destruct (Z.testbit mask bit) eqn:Ht.
  - apply negb_true_iff, Z.eqb_neq. intros H0.
    assert (Z.testbit (Z.land mask (2 ^ bit)) bit = true) as H1.
    { rewrite Z.land_spec, Ht, Z.pow2_bits_true by lia. reflexivity. }
    rewrite H0, Z.bits_0 in H1. discriminate.
  - apply negb_false_iff, Z.eqb_eq. apply Z.bits_inj'. intros n Hn.
    rewrite Z.land_spec, Z.bits_0.
    destruct (Z.eq_dec n bit) as [->|Hne].
    + rewrite Ht. reflexivity.
    + rewrite Z.pow2_bits_false by lia. apply andb_false_r.
Qed.

Lemma set_bit_is_set mask bit m' :
  set_bit mask bit = Py.Ok m' -> is_bit_set m' bit = Py.Ok true.
Proof.
  unfold set_bit, shl1. destruct (Z.ltb_spec bit 0) as [?|Hb]; [discriminate|].
  intros [= <-]. rewrite is_bit_set_testbit by lia. f_equal.
  rewrite Z.lor_spec, Z.shiftl_1_l, Z.pow2_bits_true by lia. apply orb_true_r.
Qed.

Lemma clear_bit_is_clear mask bit m' :
  clear_bit mask bit = Py.Ok m' -> is_bit_set m' bit = Py.Ok false.
Proof.
  unfold clear_bit, shl1. destruct (Z.ltb_spec bit 0) as [?|Hb]; [discriminate|].
  intros [= <-]. rewrite is_bit_set_testbit by lia. f_equal.
  rewrite Z.land_spec, Z.lnot_spec, Z.shiftl_1_l, Z.pow2_bits_true by lia.
  apply andb_false_r.
Qed.

(** C10: the bit-mask helpers satisfy [set_bit(0, 3) = 8],
    [clear_bit(8, 3) = 0] and [is_bit_set(8, 3) = True]. *)
Theorem bit_helpers_examples :
  set_bit 0 3 = Py.Ok 8 /\ clear_bit 8 3 = Py.Ok 0 /\ is_bit_set 8 3 = Py.Ok true.
Proof. repeat split; reflexivity. Qed.

End SwitchFacts.

(** *** switch.py: bit masks, for every mask and bit *)

Module BitMaskFacts.
Import Switch.

Lemma shl1_nonneg bit : 0 <= bit -> shl1 bit = Py.Ok (2 ^ bit).
Proof.
  intros H. unfold shl1. destruct (Z.ltb_spec bit 0); [lia|].
  rewrite Z.shiftl_1_l. reflexivity.
Qed.

Lemma set_bit_nonneg mask bit :
  0 <= bit -> set_bit mask bit = Py.Ok (Z.lor mask (2 ^ bit)).
Proof. intros H. unfold set_bit. rewrite shl1_nonneg by exact H. reflexivity. Qed.

Lemma clear_bit_nonneg mask bit :
  0 <= bit -> clear_bit mask bit = Py.Ok (Z.land mask (Z.lnot (2 ^ bit))).
Proof. intros H. unfold clear_bit. rewrite shl1_nonneg by exact H. reflexivity. Qed.

(** X1: Setting a bit makes its test true, clearing it makes its test false,
    whatever the mask was. *)
Theorem set_then_test_clear_then_test (mask bit : Z) :
  0 <= bit ->
  (exists m, set_bit mask bit = Py.Ok m /\ is_bit_set m bit = Py.Ok true)
  /\ (exists m, clear_bit mask bit = Py.Ok m /\ is_bit_set m bit = Py.Ok false).
Proof.
  intros H. split.
  - eexists. split; [apply set_bit_nonneg, H|].
    eapply SwitchFacts.set_bit_is_set, set_bit_nonneg, H.
  - eexists. split; [apply clear_bit_nonneg, H|].
    eapply SwitchFacts.clear_bit_is_clear, clear_bit_nonneg, H.
Qed.

Lemma set_then_test_clear_then_test_witness :
  (exists m, set_bit 5 1 = Py.Ok m /\ is_bit_set m 1 = Py.Ok true)
  /\ (exists m, clear_bit 5 2 = Py.Ok m /\ is_bit_set m 2 = Py.Ok false).
Proof.
  split.
  - apply (set_then_test_clear_then_test 5 1). lia.
  - apply (set_then_test_clear_then_test 5 2). lia.
Defined.

(** X2: Setting or clearing one bit leaves every other bit as it was. *)
Theorem other_bits_untouched (mask bit bit' m : Z) :
  0 <= bit -> 0 <= bit' -> bit <> bit' ->
  set_bit mask bit = Py.Ok m \/ clear_bit mask bit = Py.Ok m ->
  is_bit_set m bit' = is_bit_set mask bit'.
Proof.
  intros Hb Hb' Hne Hm.
  rewrite !SwitchFacts.is_bit_set_testbit by exact Hb'. f_equal.
  rewrite set_bit_nonneg in Hm by exact Hb.
  rewrite clear_bit_nonneg in Hm by exact Hb.
  destruct Hm as [[= <-] | [= <-]].
  - rewrite Z.lor_spec, Z.pow2_bits_false by lia. apply orb_false_r.
  - rewrite Z.land_spec, Z.lnot_spec, Z.pow2_bits_false by lia. apply andb_true_r.
Qed.

Lemma other_bits_untouched_witness :
  is_bit_set 13 2 = is_bit_set 5 2 /\ is_bit_set 4 2 = is_bit_set 5 2.
Proof.
  split.
  - apply (other_bits_untouched 5 3 2 13); [lia | lia | lia | left; reflexivity].
  - apply (other_bits_untouched 5 0 2 4); [lia | lia | lia | right; reflexivity].
Defined.

(** X3: Setting a clear bit and clearing it again, or clearing a set bit and
    setting it again, gives the mask back. *)
Theorem toggle_round_trip (mask bit m : Z) :
  0 <= bit ->
  (is_bit_set mask bit = Py.Ok false -> set_bit mask bit = Py.Ok m ->
   clear_bit m bit = Py.Ok mask)
  /\ (is_bit_set mask bit = Py.Ok true -> clear_bit mask bit = Py.Ok m ->
      set_bit m bit = Py.Ok mask).
Proof.
  intros Hb. rewrite SwitchFacts.is_bit_set_testbit by exact Hb.
  split.
  - rewrite set_bit_nonneg by exact Hb.
    intros [= Ht] [= <-]. rewrite clear_bit_nonneg by exact Hb. f_equal.
    apply Z.bits_inj'. intros n Hn.
    rewrite Z.land_spec, Z.lor_spec, Z.lnot_spec by exact Hn.
    destruct (Z.eq_dec n bit) as [->|Hne].
    + rewrite Ht, Z.pow2_bits_true by lia. reflexivity.
    + rewrite Z.pow2_bits_false by lia. simpl. rewrite orb_false_r. apply andb_true_r.
  - rewrite clear_bit_nonneg by exact Hb.
    intros [= Ht] [= <-]. rewrite set_bit_nonneg by exact Hb. f_equal.
    apply Z.bits_inj'. intros n Hn.
    rewrite Z.lor_spec, Z.land_spec, Z.lnot_spec by exact Hn.
    destruct (Z.eq_dec n bit) as [->|Hne].
    + rewrite Ht, Z.pow2_bits_true by lia. reflexivity.
    + rewrite Z.pow2_bits_false by lia. simpl. rewrite andb_true_r. apply orb_false_r.
Qed.

Lemma toggle_round_trip_witness :
  clear_bit 13 3 = Py.Ok 5 /\ set_bit 1 2 = Py.Ok 5.
Proof.
  split.
  - apply (proj1 (toggle_round_trip 5 3 13 ltac:(lia))); reflexivity.
  - apply (proj2 (toggle_round_trip 5 2 1 ltac:(lia))); reflexivity.
Defined.

End BitMaskFacts.


(** *** switch.py: the entities *)

Module SwitchEntityFacts.
Import Py Api Switch Switch.Entities.

(** Replacing the element at [i] by one that the predicate judges alike
    does not move what [list_find] finds. *)
Lemma list_find_insert_alike {A} (P : A -> Prop) `{!forall x, Decision (P x)}
    (l : list A) (i : nat) (x y : A) :
  l !! i = Some x -> (P x <-> P y) ->
  list_find P (<[i := y]> l)
  = (fun '(j, z) => (j, if decide (j = i) then y else z)) <$> list_find P l.
Proof.
  revert i. induction l as [|a l IH]; intros i Hi Hxy; [discriminate|].
  destruct i as [|i]; simpl in *.
  - injection Hi as ->. destruct (decide (P x)) as [Hx|Hx].
    + rewrite decide_True by tauto. reflexivity.
    + rewrite decide_False by tauto.
      destruct (list_find P l) as [[j z]|]; reflexivity.
  - destruct (decide (P a)); [reflexivity|].
    rewrite (IH i Hi Hxy). destruct (list_find P l) as [[j z]|]; simpl; [|reflexivity].
    f_equal. f_equal. destruct (decide (j = i)) as [->|Hne].
    + rewrite decide_True by reflexivity. reflexivity.
    + rewrite decide_False by lia. reflexivity.
Qed.

Lemma first_profile_lookup profile_id l i p :
  first_profile profile_id l = Some (i, p) -> l !! i = Some p /\ id p = profile_id.
Proof. unfold first_profile. intros H. apply list_find_Some in H. tauto. Qed.


Lemma list_alter_as_insert {A} (f : A -> A) (l : list A) (i : nat) (x : A) :
  l !! i = Some x -> alter f i l = <[i := f x]> l.
Proof.
  intros Hi. apply list_eq. intros j. destruct (decide (j = i)) as [->|Hne].
  - rewrite list_lookup_alter_eq, Hi, list_lookup_insert_eq; [reflexivity|].
    eapply lookup_lt_Some, Hi.
  - rewrite list_lookup_alter_ne, list_lookup_insert_ne by congruence. reflexivity.
Qed.

Lemma has_address_truthy address d : has_address address d -> dict_truthy d = true.
Proof.
  unfold has_address, dict_truthy. intros H.
  destruct (Nat.eqb_spec (size d) 0) as [H0|]; [|reflexivity].
  apply map_size_empty_inv in H0. subst d. rewrite lookup_empty in H. discriminate.
Qed.

Lemma has_address_insert_selected address d v :
  has_address address (<["selected"%string := v]> d) <-> has_address address d.
Proof. unfold has_address. rewrite lookup_insert_ne by discriminate. reflexivity. Qed.

Lemma selected_insert d v : selected (<["selected"%string := v]> d) = v.
Proof. unfold selected. rewrite lookup_insert_eq. reflexivity. Qed.

Lemma on_mask_int {A} (f : Z -> Z -> result A) mask m bit :
  as_int mask = Ok m -> 0 <= bit -> on_mask f mask bit = f m bit.
Proof.
  intros Hm Hb. unfold on_mask, shl1.
  destruct (Z.ltb_spec bit 0); [lia|]. rewrite Hm. reflexivity.
Qed.

Lemma on_mask_negative {A} (f : Z -> Z -> result A) mask bit :
  bit < 0 -> on_mask f mask bit = Raise (ValueError "negative shift count").
Proof.
  intros Hb. unfold on_mask, shl1. destruct (Z.ltb_spec bit 0); [reflexivity|lia].
Qed.

Lemma _get_device_found address s i d :
  _get_device address s = Some (i, d) ->
  exists dt bt, data s = Some dt /\ bluetooth dt = Some bt
                /\ devices bt !! i = Some d /\ has_address address d
                /\ list_find (has_address address) (devices bt) = Some (i, d).
Proof.
  unfold _get_device. destruct (data s) as [dt|] eqn:Hd; [|discriminate].
  destruct (bluetooth dt) as [bt|] eqn:Hb; [|discriminate].
  intros H. exists dt, bt. pose proof H as H'. apply list_find_Some in H'.
  destruct H' as (Hi & Ha & _). repeat split; assumption || reflexivity.
Qed.

Section Serialisers.
Variable to_full_payload : PidProfile -> result value.
Variable provider_to_payload : Provider -> result value.
Variable bluetooth_to_payload : Bluetooth -> result value.

Ltac run :=
  unfold _async_set_opl, _async_set_link, telegram_async_write,
    pushover_async_write, bluetooth_async_turn, probe_async_turn, _push,
    opl_is_on, link_is_on, link_available, telegram_is_on, pushover_is_on,
    settings_pid, settings_pid_or_empty, data_push, data_bluetooth,
    refresh_if, emit, set_pid, set_data, try_except, bind, get, put, modify,
    lift, ret, raise;
  cbn beta iota delta [fst snd settings data trace pid push bluetooth].

(** The profiles after an OPL or link write. *)
Lemma _async_set_opl_settings dev profile_id v s l i p :
  settings s = Some {| pid := Some l |} ->
  first_profile profile_id l = Some (i, p) ->
  settings (snd (_async_set_opl to_full_payload dev profile_id v s))
  = Some {| pid := Some (<[i := {| id := id p; opl := Bool v; link := link p;
                                   supports_link := supports_link p;
                                   other := other p |}]> l) |}.
Proof.
  intros Hs Hf. run. rewrite Hs. cbn. rewrite Hf. cbn.
  destruct (to_full_payload _); cbn; [|reflexivity].
  destruct (truthy _); reflexivity.
Qed.

Lemma _async_set_link_settings dev profile_id v s l i p :
  settings s = Some {| pid := Some l |} ->
  first_profile profile_id l = Some (i, p) ->
  settings (snd (_async_set_link to_full_payload dev profile_id v s))
  = Some {| pid := Some (<[i := {| id := id p; opl := opl p;
                                   link := Int (if v then 1 else 0);
                                   supports_link := supports_link p;
                                   other := other p |}]> l) |}.
Proof.
  intros Hs Hf. run. rewrite Hs. cbn. rewrite Hf. cbn.
  destruct (to_full_payload _); cbn; [|reflexivity].
  destruct (truthy _); reflexivity.
Qed.

(** X7: Writing the OPL flag of a profile and reading it back gives the value
    written, whatever the device answers and even if serialising fails; the
    OPL flag of every other profile and every link flag read as before. *)
Theorem opl_write_then_read dev profile_id v s l i p :
  settings s = Some {| pid := Some l |} ->
  first_profile profile_id l = Some (i, p) ->
  let s' := snd (_async_set_opl to_full_payload dev profile_id v s) in
  fst (opl_is_on profile_id s') = Ok v
  /\ (forall other_id, other_id <> profile_id ->
        fst (opl_is_on other_id s') = fst (opl_is_on other_id s))
  /\ (forall any_id, fst (link_is_on any_id s') = fst (link_is_on any_id s)).
Proof.
  intros Hs Hf s'.
  pose proof (_async_set_opl_settings dev profile_id v s l i p Hs Hf) as Hs'.
  fold s' in Hs'. destruct (first_profile_lookup _ _ _ _ Hf) as [Hi Hid].
  assert (forall q, first_profile q
            (<[i := {| id := id p; opl := Bool v; link := link p;
                       supports_link := supports_link p; other := other p |}]> l)
          = (fun '(j, z) => (j, if decide (j = i)
                                then {| id := id p; opl := Bool v; link := link p;
                                        supports_link := supports_link p;
                                        other := other p |}
                                else z)) <$> first_profile q l) as Hfind.
  { intros q. apply (list_find_insert_alike _ l i p); [exact Hi | reflexivity]. }
  repeat split.
  - run. rewrite Hs'. cbn -[first_profile]. rewrite Hfind, Hf. cbn.
    rewrite decide_True by reflexivity. destruct v; reflexivity.
  - intros q Hq. run. rewrite Hs', Hs. cbn -[first_profile]. rewrite Hfind.
    destruct (first_profile q l) as [[j z]|] eqn:Hfq; cbn; [|reflexivity].
    destruct (decide (j = i)) as [->|Hne]; [|reflexivity].
    destruct (first_profile_lookup _ _ _ _ Hfq) as [Hj Hidz]. congruence.
  - intros q. run. rewrite Hs', Hs. cbn -[first_profile]. rewrite Hfind.
    destruct (first_profile q l) as [[j z]|] eqn:Hfq; cbn; [|reflexivity].
    destruct (decide (j = i)) as [->|Hne]; [|reflexivity].
    destruct (first_profile_lookup _ _ _ _ Hfq) as [Hj Hidz].
    cbn. congruence.
Qed.

(** X8: Writing the link flag of a profile, which is stored as 0 or 1, and
    reading it back gives the value written; the link flag of every other
    profile, every OPL flag and every profile's availability read as
    before. *)
Theorem link_write_then_read dev profile_id v s l i p :
  settings s = Some {| pid := Some l |} ->
  first_profile profile_id l = Some (i, p) ->
  let s' := snd (_async_set_link to_full_payload dev profile_id v s) in
  fst (link_is_on profile_id s') = Ok v
  /\ (forall other_id, other_id <> profile_id ->
        fst (link_is_on other_id s') = fst (link_is_on other_id s))
  /\ (forall any_id, fst (opl_is_on any_id s') = fst (opl_is_on any_id s))
  /\ (forall any_id, fst (link_available any_id s') = fst (link_available any_id s)).
Proof.
  intros Hs Hf s'.
  pose proof (_async_set_link_settings dev profile_id v s l i p Hs Hf) as Hs'.
  fold s' in Hs'. destruct (first_profile_lookup _ _ _ _ Hf) as [Hi Hid].
  assert (forall q, first_profile q
            (<[i := {| id := id p; opl := opl p; link := Int (if v then 1 else 0);
                       supports_link := supports_link p; other := other p |}]> l)
          = (fun '(j, z) => (j, if decide (j = i)
                                then {| id := id p; opl := opl p;
                                        link := Int (if v then 1 else 0);
                                        supports_link := supports_link p;
                                        other := other p |}
                                else z)) <$> first_profile q l) as Hfind.
  { intros q. apply (list_find_insert_alike _ l i p); [exact Hi | reflexivity]. }
  repeat split.
  - run. rewrite Hs'. cbn -[first_profile]. rewrite Hfind, Hf. cbn.
    rewrite decide_True by reflexivity. destruct v; reflexivity.
  - intros q Hq. run. rewrite Hs', Hs. cbn -[first_profile]. rewrite Hfind.
    destruct (first_profile q l) as [[j z]|] eqn:Hfq; cbn; [|reflexivity].
    destruct (decide (j = i)) as [->|Hne]; [|reflexivity].
    destruct (first_profile_lookup _ _ _ _ Hfq) as [Hj Hidz]. congruence.
  - intros q. run. rewrite Hs', Hs. cbn -[first_profile]. rewrite Hfind.
    destruct (first_profile q l) as [[j z]|] eqn:Hfq; cbn; [|reflexivity].
    destruct (decide (j = i)) as [->|Hne]; [|reflexivity].
    destruct (first_profile_lookup _ _ _ _ Hfq) as [Hj Hidz].
    cbn. congruence.
  - intros q. run. rewrite Hs', Hs. cbn -[first_profile]. rewrite Hfind.
    destruct (first_profile q l) as [[j z]|] eqn:Hfq; cbn; [|reflexivity].
    destruct (decide (j = i)) as [->|Hne]; [|reflexivity].
    destruct (first_profile_lookup _ _ _ _ Hfq) as [Hj Hidz].
    cbn. congruence.
Qed.

(** The store after a probe has been switched: only the [selected] entry of
    the probe's device has changed, apart from the trace. *)
Lemma probe_async_turn_data dev address probe (on : bool) s i d mask :
  _get_device address s = Some (i, d) ->
  as_int (selected d) = Ok mask ->
  0 <= probe ->
  exists (dt : Data) (bt : Bluetooth) (v : Z),
    data s = Some dt /\ bluetooth dt = Some bt
    /\ (if on then set_bit mask probe else clear_bit mask probe) = Ok v
    /\ data (snd (probe_async_turn bluetooth_to_payload dev address probe on s))
       = Some {| push := push dt;
                 bluetooth :=
                   Some {| bt_enabled := bt_enabled bt;
                           devices := <[i := <["selected"%string := Int v]> d]>
                                        (devices bt) |} |}.
Proof.
  intros Hget Hmask Hprobe.
  destruct (_get_device_found _ _ _ _ Hget) as (dt & bt & Hd & Hb & Hi & Ha & _).
  assert (exists v, (if on then set_bit mask probe else clear_bit mask probe) = Ok v)
    as [v Hv].
  { destruct on; [rewrite BitMaskFacts.set_bit_nonneg by exact Hprobe
                 | rewrite BitMaskFacts.clear_bit_nonneg by exact Hprobe]; eauto. }
  exists dt, bt, v. repeat split; try assumption.
  run. rewrite Hget. cbn -[_get_device]. rewrite (has_address_truthy _ _ Ha). cbn.
  rewrite (on_mask_int _ _ mask) by assumption.
  unfold assign_selected, set_data. destruct on; rewrite Hv; cbn; rewrite Hd, Hb; cbn;
    rewrite (list_alter_as_insert _ _ _ _ Hi);
    destruct (bluetooth_to_payload _); cbn; try reflexivity;
    destruct (truthy _); reflexivity.
Qed.

(** X5: Switching a probe on or off and reading it back gives the state asked
    for, whatever the device answers; every other probe of the device, every
    probe of a device with another address, and the Bluetooth switch itself
    read as before. *)
Theorem probe_write_then_read dev address probe on s i d mask :
  _get_device address s = Some (i, d) ->
  as_int (selected d) = Ok mask ->
  0 <= probe ->
  let s' := snd (probe_async_turn bluetooth_to_payload dev address probe on s) in
  probe_is_on address probe s' = Ok on
  /\ (forall probe', probe' <> probe ->
        probe_is_on address probe' s' = probe_is_on address probe' s)
  /\ (forall address' probe', address' <> address ->
        probe_is_on address' probe' s' = probe_is_on address' probe' s)
  /\ bluetooth_is_on s' = bluetooth_is_on s.
Proof.
  intros Hget Hmask Hprobe s'.
  destruct (probe_async_turn_data dev address probe on s i d mask Hget Hmask Hprobe)
    as (dt & bt & v & Hd & Hb & Hv & Hd').
  fold s' in Hd'.
  destruct (_get_device_found _ _ _ _ Hget) as (dt0 & bt0 & Hd0 & Hb0 & Hi & Ha & Hfind).
  rewrite Hd in Hd0. injection Hd0 as <-. rewrite Hb in Hb0. injection Hb0 as <-.
  assert (forall a (Hiff : has_address a d
                           <-> has_address a (<["selected"%string := Int v]> d)),
            _get_device a s'
            = (fun '(j, z) => (j, if decide (j = i)
                                  then <["selected"%string := Int v]> d else z))
                <$> _get_device a s) as Hdev.
  { intros a Hiff. unfold _get_device. rewrite Hd', Hd. cbn. rewrite Hb.
    apply (list_find_insert_alike _ _ i d); assumption. }
  assert (forall a, has_address a d
                    <-> has_address a (<["selected"%string := Int v]> d)) as Hiff.
  { intros a. symmetry. apply has_address_insert_selected. }
  repeat split.
  - unfold probe_is_on. rewrite (Hdev address (Hiff address)), Hget. cbn.
    rewrite decide_True by reflexivity.
    rewrite (has_address_truthy address) by (apply Hiff, Ha). cbn.
    rewrite selected_insert, (on_mask_int _ _ v) by (reflexivity || assumption).
    destruct on.
    + eapply SwitchFacts.set_bit_is_set, Hv.
    + eapply SwitchFacts.clear_bit_is_clear, Hv.
  - intros probe' Hne. unfold probe_is_on.
    rewrite (Hdev address (Hiff address)), Hget. cbn.
    rewrite decide_True by reflexivity.
    rewrite (has_address_truthy address) by (apply Hiff, Ha).
    rewrite (has_address_truthy address d Ha). cbn.
    rewrite selected_insert.
    destruct (Z.lt_ge_cases probe' 0) as [Hneg|Hpos].
    + rewrite !on_mask_negative by exact Hneg. reflexivity.
    + rewrite (on_mask_int _ _ v), (on_mask_int _ _ mask)
        by (reflexivity || assumption).
      rewrite !SwitchFacts.is_bit_set_testbit by assumption. f_equal.
      destruct on;
        [rewrite BitMaskFacts.set_bit_nonneg in Hv by assumption
        |rewrite BitMaskFacts.clear_bit_nonneg in Hv by assumption];
        injection Hv as <-.
      * rewrite Z.lor_spec, Z.pow2_bits_false by lia. apply orb_false_r.
      * rewrite Z.land_spec, Z.lnot_spec, Z.pow2_bits_false by lia.
        apply andb_true_r.
  - intros address' probe' Hne. unfold probe_is_on.
    rewrite (Hdev address' (Hiff address')).
    destruct (_get_device address' s) as [[j z]|] eqn:Hget'; cbn; [|reflexivity].
    destruct (decide (j = i)) as [->|Hji]; [|reflexivity].
    destruct (_get_device_found _ _ _ _ Hget') as (dt1 & bt1 & Hd1 & Hb1 & Hi1 & Ha1 & _).
    rewrite Hd in Hd1. injection Hd1 as <-. rewrite Hb in Hb1. injection Hb1 as <-.
    rewrite Hi in Hi1. injection Hi1 as <-.
    unfold has_address in Ha, Ha1. rewrite Ha in Ha1. congruence.
  - unfold bluetooth_is_on. rewrite Hd', Hd. cbn. rewrite Hb. reflexivity.
Qed.

(** X6: A probe switch whose device is not in the snapshot reads as off, and
    switching it does nothing: no request is sent and nothing is changed. *)
Theorem probe_without_device dev address probe on s :
  _get_device address s = None ->
  probe_is_on address probe s = Ok false
  /\ probe_available address s = false
  /\ probe_async_turn bluetooth_to_payload dev address probe on s = (Ok tt, s).
Proof.
  intros H. unfold probe_is_on, probe_available, probe_async_turn, bind, get, ret.
  cbn -[_get_device]. rewrite H. repeat split.
  destruct (data s) as [dt|]; [|reflexivity].
  destruct (bluetooth dt) as [bt|]; [|reflexivity].
  destruct (truthy (bt_enabled bt)); reflexivity.
Qed.

(** X11: Every switch action sends at most one request to the device, and asks
    the coordinator for a refresh exactly when that request is
    acknowledged. *)
Theorem one_request_refresh_iff_acknowledged dev op s :
  let s' := snd (perform to_full_payload provider_to_payload bluetooth_to_payload
                   dev op s) in
  trace s' = trace s
  \/ exists endpoint payload,
       trace s'
       = trace s ++ Button.DeviceRequest "POST" endpoint (Some payload)
                    :: (if acknowledged dev endpoint payload
                        then [Button.RefreshRequested] else []).
Proof.
  destruct s as [st dt tr].
  destruct op; unfold perform; run;
    unfold async_set_pid_profile, async_set_push, async_set_bluetooth,
      assign_selected, set_data, acknowledged;
    cbn beta iota delta [fst snd settings data trace pid push bluetooth];
    repeat match goal with
           | |- context [match ?x with _ => _ end] =>
               lazymatch x with
               | context [match _ with _ => _ end] => fail
               | _ => idtac
               end;
               destruct x eqn:?;
               cbn beta iota delta [fst snd settings data trace pid push bluetooth]
           end;
    try (left; reflexivity);
    right;
    lazymatch goal with
    | |- context [Button.DeviceRequest _ ?e (Some ?p)] => exists e, p
    end;
    repeat match goal with
           | H : _request _ _ _ _ = _ |- _ => rewrite H
           | H : truthy _ = _ |- _ => rewrite H
           end;
    rewrite <- ?app_assoc; reflexivity.
Qed.

(** X9: The push switches write optimistically: after a write the switch reads
    as the value written, whether or not the device accepted it and even if
    serialising failed; the other provider is not touched. *)
Theorem push_write_is_optimistic dev v s dt p :
  data s = Some dt -> push dt = Some p ->
  let after_telegram := snd (telegram_async_write provider_to_payload dev v s) in
  let after_pushover := snd (pushover_async_write provider_to_payload dev v s) in
  fst (telegram_is_on after_telegram) = Ok v
  /\ fst (pushover_is_on after_telegram) = fst (pushover_is_on s)
  /\ fst (pushover_is_on after_pushover) = Ok v
  /\ fst (telegram_is_on after_pushover) = fst (telegram_is_on s).
Proof.
  intros Hd Hp. destruct s as [st d tr]. cbn in Hd. subst d.
  run. rewrite Hp. cbn.
  repeat split;
    repeat match goal with
           | |- context [match ?x with _ => _ end] =>
               lazymatch x with
               | context [match _ with _ => _ end] => fail
               | _ => idtac
               end;
               destruct x eqn:?; cbn
           end;
    try reflexivity; destruct v; reflexivity.
Qed.

(** X10: The Bluetooth switch writes optimistically too: with a Bluetooth section in the
    snapshot it reads as the value written and the devices keep their
    entries; without one, turning it does nothing. *)
Theorem bluetooth_write_is_optimistic dev v s dt :
  data s = Some dt ->
  let s' := snd (bluetooth_async_turn bluetooth_to_payload dev v s) in
  match bluetooth dt with
  | Some bt =>
      bluetooth_is_on s' = v
      /\ exists dt' bt', data s' = Some dt' /\ bluetooth dt' = Some bt'
                         /\ devices bt' = devices bt /\ push dt' = push dt
  | None => bluetooth_async_turn bluetooth_to_payload dev v s = (Ok tt, s)
  end.
Proof.
  intros Hd. destruct s as [st d tr]. cbn in Hd. subst d.
  unfold bluetooth_is_on. run.
  destruct (bluetooth dt) as [bt|] eqn:Hb; cbn; [|reflexivity].
  destruct (bluetooth_to_payload _); cbn.
  - destruct (truthy (async_set_bluetooth _ _ _)); cbn;
      (split; [destruct v; reflexivity | eauto 10]).
  - split; [destruct v; reflexivity | eauto 10].
Qed.

End Serialisers.

Lemma opl_write_then_read_witness :
  fst (opl_is_on 1 (snd (_async_set_opl sample_to_full_payload
                           Coordinator.offline_device 1 true sample_store)))
  = Ok true.
Proof.
  assert (settings sample_store = Some {| pid := Some sample_profiles |}) as H1
    by reflexivity.
  assert (first_profile 1 sample_profiles
          = Some (1%nat, {| id := 1; opl := Bool false; link := Int 0;
                            supports_link := Bool true;
                            other := [("Kp"%string, Int 7)] |})) as H2
    by (vm_compute; reflexivity).
  exact (proj1 (opl_write_then_read sample_to_full_payload
                  Coordinator.offline_device 1 true sample_store _ _ _ H1 H2)).
Defined.

Lemma link_write_then_read_witness :
  fst (link_is_on 1 (snd (_async_set_link sample_to_full_payload
                            Coordinator.offline_device 1 true sample_store)))
  = Ok true.
Proof.
  assert (settings sample_store = Some {| pid := Some sample_profiles |}) as H1
    by reflexivity.
  assert (first_profile 1 sample_profiles
          = Some (1%nat, {| id := 1; opl := Bool false; link := Int 0;
                            supports_link := Bool true;
                            other := [("Kp"%string, Int 7)] |})) as H2
    by (vm_compute; reflexivity).
  exact (proj1 (link_write_then_read sample_to_full_payload
                  Coordinator.offline_device 1 true sample_store _ _ _ H1 H2)).
Defined.

Lemma probe_write_then_read_witness :
  probe_is_on "aa:bb" 1
    (snd (probe_async_turn sample_bluetooth_to_payload Coordinator.offline_device
            "aa:bb" 1 true sample_store))
  = Ok true.
Proof.
  assert (has_address "aa:bb" sample_device) as Ha by (vm_compute; reflexivity).
  assert (_get_device "aa:bb" sample_store = Some (0%nat, sample_device)) as H1.
  { unfold _get_device. change (data sample_store) with (Some sample_data).
    cbn [bluetooth sample_data devices]. apply list_find_Some.
    split; [reflexivity|]. split; [exact Ha|]. intros j y _ Hlt. lia. }
  assert (as_int (selected sample_device) = Ok 0) as H2
    by (vm_compute; reflexivity).
  assert (0 <= 1) as H3 by lia.
  exact (proj1 (probe_write_then_read sample_bluetooth_to_payload
                  Coordinator.offline_device "aa:bb" 1 true sample_store _ _ _
                  H1 H2 H3)).
Defined.

Lemma probe_without_device_witness :
  probe_async_turn sample_bluetooth_to_payload Coordinator.offline_device
    "cc:dd" 0 true sample_store
  = (Ok tt, sample_store).
Proof.
  assert (~ has_address "cc:dd" sample_device) as Ha
    by (vm_compute; discriminate).
  assert (_get_device "cc:dd" sample_store = None) as H.
  { unfold _get_device. change (data sample_store) with (Some sample_data).
    cbn [bluetooth sample_data devices]. apply list_find_None.
    constructor; [exact Ha | constructor]. }
  exact (proj2 (proj2 (probe_without_device sample_bluetooth_to_payload
                         Coordinator.offline_device "cc:dd" 0 true sample_store H))).
Defined.

Lemma push_write_is_optimistic_witness :
  fst (telegram_is_on (snd (telegram_async_write sample_provider_to_payload
                              Coordinator.offline_device true sample_store)))
  = Ok true.
Proof.
  assert (data sample_store = Some sample_data) as H1 by reflexivity.
  assert (push sample_data = Some sample_push) as H2 by reflexivity.
  exact (proj1 (push_write_is_optimistic sample_provider_to_payload
                  Coordinator.offline_device true sample_store _ _ H1 H2)).
Defined.

Lemma bluetooth_write_is_optimistic_witness :
  bluetooth_is_on (snd (bluetooth_async_turn sample_bluetooth_to_payload
                          Coordinator.offline_device false sample_store))
  = false.
Proof.
  assert (data sample_store = Some sample_data) as H1 by reflexivity.
  exact (proj1 (bluetooth_write_is_optimistic sample_bluetooth_to_payload
                  Coordinator.offline_device false sample_store _ H1)).
Defined.

End SwitchEntityFacts.

(** *** __init__.py: what a poll cycle tolerates *)

Module PollCycleFacts.
Import Py Api Coordinator.

Section PollCycle.
Context {SettingsData WlanthermoData : Type}.
Variable from_json : value -> result SettingsData.
Variable new_WlanthermoData : value -> result WlanthermoData.

(** X12: The update method returns normally for every device, every store and
    every behaviour of the two constructors: nothing raised inside escapes. *)
Theorem update_never_raises dev w :
  exists r, fst (async_update_data from_json new_WlanthermoData dev w) = Ok r.
Proof.
  pose proof (CoordinatorFacts.async_update_data_never_raises
                from_json new_WlanthermoData dev w) as H.
  destruct (fst _) as [r|e]; [eauto | discriminate].
Qed.

(** X13: A [/settings] payload that cannot be parsed is tolerated: the cycle
    still returns the snapshot and leaves the store as it was. *)
Theorem settings_parse_failure_tolerated dev w e snap :
  truthy (get_data dev) = true ->
  truthy (get_settings dev) = true ->
  from_json (get_settings dev) = Raise e ->
  new_WlanthermoData (get_data dev) = Ok snap ->
  async_update_data from_json new_WlanthermoData dev w = (Ok (Some snap), w).
Proof.
  intros Hd Hs Hj Hn.
  unfold async_update_data, try_except, bind, ret, lift, modify.
  rewrite Hd, Hs, Hj, Hn. reflexivity.
Qed.

(** X14: A telemetry payload from which no snapshot can be built makes the cycle
    return [None]; settings fetched in the same cycle are cached all the
    same. *)
Theorem snapshot_failure_reported_as_offline dev w e :
  truthy (get_data dev) = true ->
  new_WlanthermoData (get_data dev) = Raise e ->
  fst (async_update_data from_json new_WlanthermoData dev w) = Ok None
  /\ (forall v, truthy (get_settings dev) = true ->
                from_json (get_settings dev) = Ok v ->
                snd (async_update_data from_json new_WlanthermoData dev w)
                = set_api_settings _ _ v w).
Proof.
  intros Hd Hn.
  unfold async_update_data, try_except, bind, ret, lift, modify.
  rewrite Hd, Hn. simpl. split.
  - destruct (truthy (get_settings dev)); simpl; [|reflexivity].
    destruct (from_json _); reflexivity.
  - intros v Hs Hj. rewrite Hs, Hj. reflexivity.
Qed.

End PollCycle.

(** A device whose [/settings] answer is not an object the parser accepts,
    and one whose telemetry cannot be turned into a snapshot. *)
Lemma settings_parse_failure_tolerated_witness :
  async_update_data (fun _ => @Raise value (ValueError "settings"))
    (@Ok value) (constant_json_device (Dict [("x"%string, Int 1)])) sample_store
  = (Ok (Some (Dict [("x"%string, Int 1)])), sample_store).
Proof.
  apply (settings_parse_failure_tolerated _ _ _ _ (ValueError "settings"));
    reflexivity.
Defined.

Lemma snapshot_failure_reported_as_offline_witness :
  fst (async_update_data (@Ok value) (fun _ => @Raise value (ValueError "data"))
         (constant_json_device (Dict [("x"%string, Int 1)])) sample_store)
  = Ok None.
Proof.
  apply (proj1 (snapshot_failure_reported_as_offline (@Ok value)
                  (fun _ => @Raise value (ValueError "data"))
                  (constant_json_device (Dict [("x"%string, Int 1)])) sample_store
                  (ValueError "data") eq_refl eq_refl)).
Defined.

End PollCycleFacts.

(** *** sensor.py: further properties of the sensors *)

Module SensorEntityFacts.
Import Py Sensor SensorFacts.
Local Open Scope Q_scope.

Lemma round2_zero x : x == 0 -> round2 x = 0.
Proof.
  intros Hx. unfold round2.
  assert (x * 100 == 0) as Hy by (rewrite Hx; reflexivity).
  assert (Qfloor (x * 100) = 0%Z) as Hn.
  { rewrite (Qfloor_comp _ _ Hy). reflexivity. }
  rewrite Hn.
  assert (Qltb (x * 100 - inject_Z 0) (1 # 2) = true) as ->.
  { apply Qltb_true. rewrite Hy. reflexivity. }
  reflexivity.
Qed.

Lemma max0_nonpos x : x <= 0 -> max0 x == 0.
Proof.
  intros Hx. unfold max0. destruct (Qltb x 0) eqn:H; [reflexivity|].
  apply Qltb_false in H. apply Qle_antisym; assumption.
Qed.

Section TimeLeft.
Import ChannelTimeLeft.

(** X15: The history never holds more than 60 samples, however many times and
    under whatever conditions the sensor is evaluated. *)
Theorem history_never_exceeds_capacity (channel : Channel) (window_seconds : Q)
    (evaluations : list (Coordinator * Q)) :
  (length (_history
             (fold_left (fun self '(c, now) => snd (native_value c now self))
                        evaluations (init channel window_seconds))) <= 60)%nat.
Proof.
  assert (forall self, (length (_history self) <= 60)%nat ->
            (length (_history
                       (fold_left (fun self '(c, now) => snd (native_value c now self))
                                  evaluations self)) <= 60)%nat) as H.
  { induction evaluations as [|[c now] evs IH]; intros self Hlen; [exact Hlen|].
    simpl. apply IH.
    destruct (native_value_cases c now self) as [-> | (ch & t & Hav & Hch & Ht)];
      [exact Hlen|].
    rewrite (native_value_estimates c now self ch t Hav Hch Ht). simpl.
    apply deque_append_bounded, Hlen. }
  apply H. simpl. lia.
Qed.

(** X16: A sensor evaluated for the first time reports nothing: one sample is
    not enough for an estimate. *)
Theorem first_evaluation_unknown c now (channel : Channel) (window_seconds : Q) :
  fst (native_value c now (init channel window_seconds)) = None.
Proof.
  set (self := init channel window_seconds).
  destruct (native_value_cases c now self) as [-> | (ch & t & Hav & Hch & Ht)];
    [reflexivity|].
  rewrite (native_value_estimates c now self ch t Hav Hch Ht).
  unfold buffered, in_window, set_history, deque_append. simpl.
  destruct (Qle_bool _ _); reflexivity.
Qed.

(** X17: Once the reading has reached the target, an estimate, when one is made,
    is 0. *)
Theorem target_reached_reports_zero c now self channel t target :
  available c self = true ->
  _get_channel c self = Some channel ->
  temp channel = Some t ->
  ch_max channel = Some target ->
  target <= t ->
  fst (native_value c now self) = None \/ fst (native_value c now self) = Some 0.
Proof.
  intros Hav Hch Ht Hmax Hle.
  rewrite (native_value_estimates c now self channel t Hav Hch Ht). simpl.
  destruct (length _ <? 2)%nat; [left; reflexivity|].
  destruct (ends _) as [[first last]|]; [|left; reflexivity].
  right. unfold estimate.
  destruct (Qle_bool (fst last - fst first) 0) eqn:Hdt; [reflexivity|].
  destruct (Qle_bool (snd last - snd first) 0) eqn:Hdtemp; [reflexivity|].
  simpl. rewrite Hmax. f_equal. apply round2_zero, max0_nonpos.
  apply not_true_iff_false in Hdt, Hdtemp. rewrite Qle_bool_iff in Hdt, Hdtemp.
  apply Qnot_le_lt in Hdt, Hdtemp.
  set (dt := fst last - fst first) in *. set (dtemp := snd last - snd first) in *.
  assert (0 < dtemp / dt) as Hrate.
  { apply Qlt_shift_div_l; [exact Hdt|]. rewrite Qmult_0_l. exact Hdtemp. }
  apply Qle_shift_div_r; [nra|]. rewrite Qmult_0_l. lra.
Qed.

Lemma target_reached_reports_zero_witness :
  fst (native_value (sample_coordinator 75 ∅) 300 (sample_sensor [(0, 50)]))
  = None
  \/ fst (native_value (sample_coordinator 75 ∅) 300 (sample_sensor [(0, 50)]))
     = Some 0.
Proof.
  apply (target_reached_reports_zero (sample_coordinator 75 ∅) 300
           (sample_sensor [(0, 50)]) (sample_channel 75) 75 70);
    try (vm_compute; reflexivity).
  vm_compute. discriminate.
Defined.

End TimeLeft.

Section ChannelTemperature.
Import ChannelTemperature.

(** X18: What the temperature sensor reports is the reading of the channel with
    its number; while the option [show_inactive_unavailable] is on it never
    reports the sentinel 999.0, and whenever it is available it reports the
    reading. *)
Theorem temperature_is_the_channel_reading c self :
  (forall t, native_value c self = Some t ->
     exists channel,
       _get_channel c self = Some channel
       /\ number channel = _channel_number self
       /\ temp channel = Some t
       /\ (truthy (show_inactive_unavailable (config_entry c)) = true ->
           ~ t == 999))
  /\ (available c self = true ->
      exists channel,
        _get_channel c self = Some channel /\ native_value c self = temp channel).
Proof.
  unfold native_value, available. split.
  - intros t. destruct (_get_channel c self) as [channel|] eqn:Hch; [|discriminate].
    destruct (temp channel) as [t'|] eqn:Ht; [|discriminate].
    destruct (is_sentinel (Some t') && truthy _) eqn:Hs; [discriminate|].
    intros [= <-]. exists channel. repeat split; try assumption; try reflexivity.
    + unfold _get_channel in Hch. apply List.find_some in Hch.
      destruct Hch as [_ Hn]. apply Z.eqb_eq. exact Hn.
    + intros Hshow Heq. rewrite Hshow, andb_true_r in Hs.
      simpl in Hs. apply Qeq_bool_iff in Heq. congruence.
  - destruct (last_update_success c); cbn [negb]; [|discriminate].
    destruct (data_system c); [|discriminate].
    destruct (_get_channel c self) as [channel|]; [|discriminate].
    intros H. exists channel. split; [reflexivity|].
    destruct (temp channel) as [t|]; [|reflexivity].
    destruct (is_sentinel (Some t) && truthy _); [discriminate | reflexivity].
Qed.

Lemma temperature_is_the_channel_reading_witness :
  ~ (60 == 999)
  /\ native_value (sample_coordinator 60 ∅) {| _channel_number := 1 |} = Some 60.
Proof.
  pose proof (temperature_is_the_channel_reading (sample_coordinator 60 ∅)
                {| _channel_number := 1 |}) as [Hread Hav].
  assert (native_value (sample_coordinator 60 ∅) {| _channel_number := 1 |}
          = Some 60) as Hv by (vm_compute; reflexivity).
  destruct (Hread 60 Hv) as (channel & _ & _ & _ & Hne).
  split; [|exact Hv]. apply Hne. vm_compute. reflexivity.
Defined.

End ChannelTemperature.

Section SystemOnline.
Import SystemOnline.

Lemma map_value_lookup z r :
  map_value !! z = Some r ->
  (z = 0%Z /\ r = "not_connected"%string) \/ (z = 1%Z /\ r = "standby"%string)
  \/ (z = 2%Z /\ r = "connected"%string).
Proof.
  unfold map_value. rewrite !lookup_insert_Some, lookup_singleton_Some. intuition.
Qed.

(** X19: The state reported by the online sensor is always one of its declared
    options, or nothing; once the sensor has taken over the current system
    object, it reports [connected] exactly when it is available and the
    device says 2. *)
Theorem online_state_is_a_declared_option c self :
  (forall r, native_value c self = Some r -> r ∈ _attr_options)
  /\ (native_value c (_handle_coordinator_update c self) = Some "connected"%string
      <-> available c self = true
          /\ exists system, data_system c = Some system /\ online system = 2%Z).
Proof.
  unfold native_value, available, _handle_coordinator_update, _attr_options. split.
  - intros r. destruct (negb _).
    + intros [= <-]. set_solver.
    + destruct (_sys self) as [system|]; [|discriminate].
      intros H. apply map_value_lookup in H.
      destruct H as [[_ ->] | [[_ ->] | [_ ->]]]; set_solver.
  - cbn [_sys]. destruct (last_update_success c); simpl.
    + destruct (data_system c) as [system|]; simpl.
      * split.
        -- intros H. apply map_value_lookup in H.
           destruct H as [[_ [=]] | [[_ [=]] | [Hz _]]]. eauto.
        -- intros (_ & system' & [= <-] & ->). reflexivity.
      * split; [discriminate | intros [[=] _]].
    + split; [discriminate | intros [[=] _]].
Qed.

Lemma online_state_is_a_declared_option_witness :
  native_value (sample_coordinator 60 ∅)
    (_handle_coordinator_update (sample_coordinator 60 ∅) {| _sys := None |})
  = Some "connected"%string.
Proof.
  apply (proj2 (online_state_is_a_declared_option (sample_coordinator 60 ∅)
                  {| _sys := None |})).
  split; [reflexivity|]. exists {| online := 2 |}. split; reflexivity.
Defined.

End SystemOnline.
End SensorEntityFacts.

(** *** button.py: further properties of the buttons *)

Module ButtonEntityFacts.
Import Py Api Button ButtonFacts.
Local Open Scope Q_scope.

(** X20: The cool-down runs from the last press that was acted upon: a press
    suppressed inside it changes nothing, so the next press is acted upon as
    soon as 5 time units have passed since the accepted one, however
    recently the suppressed one came. *)
Theorem cooldown_counts_from_accepted_press (a : action) (dev1 dev2 dev3 : device)
    (s : store) (t1 t2 t3 : Q) :
  DEBOUNCE_SECONDS <= t1 - _last_press s ->
  t2 - t1 < DEBOUNCE_SECONDS ->
  DEBOUNCE_SECONDS <= t3 - t1 ->
  let s1 := snd (async_press a dev1 t1 s) in
  let s2 := snd (async_press a dev2 t2 s1) in
  let third := async_press a dev3 t3 s2 in
  s2 = s1
  /\ _last_press (snd third) = t3
  /\ (fst third = Ok tt ->
      exists w, writes (trace (snd third)) = writes (trace s1) ++ [w]).
Proof.
  intros H1 H2 H3 s1 s2 third.
  apply debounced_false in H1.
  assert (_last_press s1 = t1) as Hlp by (apply press_records_time, H1).
  assert (s2 = s1) as Hs2.
  { unfold s2. rewrite press_debounced; [reflexivity|].
    apply debounced_true. rewrite Hlp. exact H2. }
  assert (debounced t3 s2 = false) as Hd3.
  { apply debounced_false. rewrite Hs2, Hlp. exact H3. }
  split; [exact Hs2|]. split.
  - apply press_records_time, Hd3.
  - intros Hok. rewrite <- Hs2. apply press_writes_once; assumption.
Qed.

Lemma cooldown_counts_from_accepted_press_witness :
  let dev := constant_device 200 "true" in
  let s1 := snd (async_press PushoverTest dev 10 (init (Some sample_data))) in
  let s2 := snd (async_press PushoverTest dev 14 s1) in
  s2 = s1 /\ _last_press (snd (async_press PushoverTest dev 16 s2)) = 16.
Proof.
  intros dev s1 s2.
  destruct (cooldown_counts_from_accepted_press PushoverTest dev dev dev
              (init (Some sample_data)) 10 14 16) as (Hsame & Hlast & _).
  - vm_compute. discriminate.
  - vm_compute. reflexivity.
  - vm_compute. discriminate.
  - split; [exact Hsame | exact Hlast].
Defined.

(** X21: A press that raises has sent nothing: only the two test buttons can
    raise, they do so before their request goes out, and the time of the
    press is recorded all the same. *)
Theorem raising_press_sends_nothing (a : action) (dev : device) (now : Q)
    (s : store) (e : exn) :
  fst (async_press a dev now s) = Raise e ->
  a <> CloudNewToken
  /\ trace (snd (async_press a dev now s)) = trace s
  /\ data (snd (async_press a dev now s)) = data s
  /\ _last_press (snd (async_press a dev now s)) = now.
Proof.
  destruct (debounced now s) eqn:Hd.
  - rewrite (press_debounced a dev now s Hd). discriminate.
  - revert Hd. destruct a; run_press; intros Hd; rewrite Hd; split_store s;
      split_cases; try discriminate; intros _; repeat split; discriminate.
Qed.

Lemma raising_press_sends_nothing_witness :
  trace (snd (async_press TelegramTest (constant_device 200 "true") 100 (init None)))
  = [].
Proof.
  apply (raising_press_sends_nothing TelegramTest (constant_device 200 "true") 100
           (init None) (AttributeError "push")).
  reflexivity.
Defined.

(** X22: A press on the new-token button that is acted upon stores the device's
    answer, stripped of surrounding whitespace, as the cloud token and asks
    for a refresh when the answer has status 200 and a non-empty body; with
    any other answer it leaves the snapshot alone and logs a warning. Either
    way exactly one request has gone out. *)
Theorem newtoken_press_outcome (dev : device) (now : Q) (s : store)
    (d : Data) (st : Settings) (i : Iot)
    (status : option Z) (body : option string) :
  debounced now s = false ->
  data s = Some d -> settings d = Some st -> iot st = Some i ->
  _request dev "POST" "/newtoken" None = (status, body) ->
  let s' := snd (newtoken_async_press dev now s) in
  (forall t, status = Some 200%Z -> body = Some t -> t <> ""%string ->
     data s' = Some {| push := push d;
                       settings := Some {| iot := Some {| CLtoken := strip t;
                                                          CLon := CLon i |} |} |}
     /\ trace s' = trace s ++ [DeviceRequest "POST" "/newtoken" None;
                               RefreshRequested])
  /\ (status <> Some 200%Z \/ body = None \/ body = Some ""%string ->
      data s' = data s
      /\ trace s' = trace s ++ [DeviceRequest "POST" "/newtoken" None;
                                Logged "Failed to generate new IoT token"]).
Proof.
  intros Hd Hdata Hset Hiot Hreq s'. subst s'.
  destruct s as [lp dt tr]. cbn in Hdata. subst dt.
  run_press. rewrite Hd, Hreq.
  cbn beta iota delta [fst snd _last_press data trace]. split.
  - intros t -> -> Ht. cbn.
    destruct (String.eqb_spec t "") as [|_]; [contradiction|]. cbn.
    rewrite Hset, Hiot. cbn. rewrite <- app_assoc. split; reflexivity.
  - intros Hfail.
    assert (forall A (x : string -> A) (y : A),
              match status, body with
              | Some 200%Z, Some t => if truthy (Str t) then x t else y
              | _, _ => y
              end = y) as Hmatch.
    { intros A x y. destruct Hfail as [Hst | [-> | ->]].
      - destruct status as [[|p|p]|]; try reflexivity.
        destruct body as [t|]; [|repeat (destruct p as [p|p|]; try reflexivity)].
        repeat (destruct p as [p|p|]; try reflexivity). congruence.
      - destruct status as [[|p|p]|]; try reflexivity.
        repeat (destruct p as [p|p|]; try reflexivity).
      - destruct status as [[|p|p]|]; try reflexivity.
        repeat (destruct p as [p|p|]; try reflexivity). }
    rewrite Hmatch. cbn. rewrite <- app_assoc. split; reflexivity.
Qed.

Lemma newtoken_press_outcome_witness :
  trace (snd (newtoken_async_press (constant_device 200 " tok ") 100
                (init (Some sample_data))))
  = [DeviceRequest "POST" "/newtoken" None; RefreshRequested].
Proof.
  pose proof (newtoken_press_outcome (constant_device 200 " tok ") 100
                (init (Some sample_data)) sample_data
                {| iot := Some {| CLtoken := "old"; CLon := Bool true |} |}
                {| CLtoken := "old"; CLon := Bool true |}
                (Some 200%Z) (Some " tok "%string)) as H.
  destruct (H eq_refl eq_refl eq_refl eq_refl eq_refl) as [Hok _].
  destruct (Hok " tok "%string eq_refl eq_refl) as [_ Htrace];
    [discriminate | exact Htrace].
Defined.

(** **** Entity discovery *)

Local Set Warnings "-clear-no-such-hyp".

Lemma discover_fresh key b (store : gset string) (new : list button) :
  key ∉ store -> discover key b (store, new) = (store ∪ {[ key ]}, new ++ [b]).
Proof. intros H. unfold discover. cbn. rewrite decide_False by exact H. reflexivity. Qed.

Lemma discover_known key b (store : gset string) (new : list button) :
  key ∈ store -> discover key b (store, new) = (store, new).
Proof. intros H. unfold discover. cbn. rewrite decide_True by exact H. reflexivity. Qed.

(** A registry in which the four buttons are known. *)
Lemma discover_when_all_known d r :
  "telegram_test"%string ∈ buttons r -> "pushover_test"%string ∈ buttons r ->
  "reload_integration"%string ∈ buttons r -> "cloud_newtoken"%string ∈ buttons r ->
  _async_discover_entities d r = r.
Proof.
  intros H1 H2 H3 H4. unfold _async_discover_entities.
  destruct (Sensor.present d); cbn [negb]; [|reflexivity].
  rewrite !discover_known by assumption. destruct r; reflexivity.
Qed.

Lemma discover_first_time d :
  _async_discover_entities (Some d) empty_registry
  = {| buttons := ∅ ∪ {[ "telegram_test"%string ]} ∪ {[ "pushover_test"%string ]}
                    ∪ {[ "reload_integration"%string ]}
                    ∪ {[ "cloud_newtoken"%string ]};
       added := [[TelegramTestButton; PushoverTestButton;
                  ReloadIntegrationButton; NewTokenButton]] |}.
Proof.
  unfold _async_discover_entities, empty_registry. cbn [Sensor.present negb buttons added].
  rewrite !discover_fresh by set_solver. reflexivity.
Qed.

Lemma discover_all_from_known ds r :
  "telegram_test"%string ∈ buttons r -> "pushover_test"%string ∈ buttons r ->
  "reload_integration"%string ∈ buttons r -> "cloud_newtoken"%string ∈ buttons r ->
  fold_left (fun r d => _async_discover_entities d r) ds r = r.
Proof.
  intros H1 H2 H3 H4. induction ds as [|d ds IH]; [reflexivity|].
  simpl. rewrite discover_when_all_known by assumption. exact IH.
Qed.

(** X23: However often the discovery listener runs, the four buttons are handed
    to the platform exactly once, in one batch, by the first run that sees
    data; until then nothing is created. *)
Theorem buttons_created_exactly_once (ds : list (option Data)) :
  added (discover_all ds)
  = (if existsb Sensor.present ds
     then [[TelegramTestButton; PushoverTestButton; ReloadIntegrationButton;
            NewTokenButton]]
     else [])
  /\ (forall key : string,
        key ∈ buttons (discover_all ds)
        <-> existsb Sensor.present ds = true
            /\ key ∈ ["telegram_test"; "pushover_test"; "reload_integration";
                      "cloud_newtoken"]%string).
Proof.
  unfold discover_all. induction ds as [|[d|] ds IH].
  - split; [reflexivity|]. intros key. cbn. set_solver.
  - cbn [fold_left existsb Sensor.present orb]. rewrite discover_first_time.
    rewrite discover_all_from_known by set_solver.
    split; [reflexivity|]. intros key. cbn [buttons]. set_solver.
  - exact IH.
Qed.

End ButtonEntityFacts.
